(** * TrendRadar AI client: a shallow embedding of [trendradar/ai/client.py]

    The module sends a chat request to an LLM gateway by running [curl] in a
    subprocess, parses the JSON answer and retries with exponential backoff.
    The embedding follows the Python text statement by statement:

    - Python values obtained from [json.loads] are the inductive [json];
      a JSON object is a [gmap string json], as a Python [dict] is;
    - [os.environ] is a [gmap string string];
    - exceptions are the inductive [exn]; code that can raise lives in the
      error monad [res], code that also calls [subprocess.run] or
      [time.sleep] lives in the state-and-exception monad [M];
    - the outside world is an [endpoint]: the outcome of the n-th call of
      [subprocess.run]; every call and every sleep is appended to a log;
    - what the Python runtime and its [json] library compute (parsing,
      serialisation, [repr], the text of interpreter-raised exceptions) is
      a [runtime] record the development is parametric in. *)

From Stdlib Require Import ZArith String Ascii List DecimalString.
From Stdlib Require Import Floats.SpecFloat.
From stdpp Require Import base option gmap strings list.

Local Open Scope Z_scope.
Local Open Scope string_scope.

(** ** Python values *)

(** The values [json.loads] produces: [None], [bool], [int], [float], [str],
    [list] and [dict] with string keys. *)
#[warnings="-register-all"] Inductive json : Type :=
| JNull
| JBool (b : bool)
| JInt (z : Z)
| JFloat (f : spec_float)
| JStr (s : string)
| JList (l : list json)
| JDict (d : gmap string json).

(** Python's truth value of an object ([bool(v)], as used by [not] and [or]). *)
Definition truthy (v : json) : bool :=
  match v with
  | JNull => false
  | JBool b => b
  | JInt z => negb (Z.eqb z 0)
  | JFloat (S754_zero _) => false
  | JFloat _ => true
  | JStr s => negb (String.eqb s "")
  | JList l => match l with [] => false | _ :: _ => true end
  | JDict d => negb (Nat.eqb (size d) 0)
  end.

(** [str(z)] for an [int]. *)
Definition str_of_Z (z : Z) : string := NilZero.string_of_int (Z.to_int z).

(** ** Exceptions *)

(** The exceptions that can arise inside the [try] block.  The first three
    have an [except] clause of their own; every other one is an [Exception]
    caught by the last clause.  [ValueError] is what the function itself
    raises. *)
Inductive exn : Type :=
| CalledProcessError (returncode : Z) (stderr stdout : string)
| TimeoutExpired
| JSONDecodeError
| ValueError (msg : string)
| TypeError_not_container (v : json)          (* ["error" in v] *)
| TypeError_bad_index (v : json) (key : json) (* [v[key]] on a non-dict *)
| KeyError (key : json)                       (* [d[key]], key absent *)
| IndexError                                  (* [l[0]] on an empty list *)
| AttributeError (v : json) (attr : string)   (* [v.get] on a non-dict *)
| OtherException (msg : string).              (* e.g. OSError from subprocess.run *)

Inductive res (A : Type) : Type :=
| Ok (a : A)
| Raise (e : exn).
Arguments Ok {A} a.
Arguments Raise {A} e.

#[global] Instance res_ret : MRet res := λ A a, Ok a.
#[global] Instance res_bind : MBind res := λ A B f r,
  match r with
  | Ok a => f a
  | Raise e => Raise e
  end.

(** ** Operations on Python values, as the interpreter performs them *)

(** [k in v] for a string [k]. *)
Definition py_in (k : string) (v : json) : res bool :=
  match v with
  | JDict d => Ok (bool_decide (is_Some (d !! k)))
  | JList l => Ok (existsb (λ x, match x with JStr s => String.eqb s k | _ => false end) l)
  | JStr s => Ok (bool_decide (is_Some (String.index 0 k s)))
  | _ => Raise (TypeError_not_container v)
  end.

(** [v[k]] for a string [k]. *)
Definition py_getitem (v : json) (k : string) : res json :=
  match v with
  | JDict d => match d !! k with
               | Some x => Ok x
               | None => Raise (KeyError (JStr k))
               end
  | _ => Raise (TypeError_bad_index v (JStr k))
  end.

(** The first character of a UTF-8 encoded string: its first byte and the
    continuation bytes (10xxxxxx) that follow it. *)
Definition is_continuation (a : ascii) : bool :=
  let n := nat_of_ascii a in Nat.leb 128 n && Nat.ltb n 192.

Fixpoint continuation_bytes (s : string) : string :=
  match s with
  | String a s' => if is_continuation a then String a (continuation_bytes s') else ""
  | EmptyString => ""
  end.

Definition first_char (s : string) : string :=
  match s with
  | String a s' => String a (continuation_bytes s')
  | EmptyString => ""
  end.

(** [v[0]]. *)
Definition py_getitem0 (v : json) : res json :=
  match v with
  | JList (x :: _) => Ok x
  | JList [] => Raise IndexError
  | JStr "" => Raise IndexError
  | JStr s => Ok (JStr (first_char s))
  | JDict _ => Raise (KeyError (JInt 0))
  | _ => Raise (TypeError_bad_index v (JInt 0))
  end.

(** [v.get(k, default)]. *)
Definition py_get (v : json) (k : string) (dflt : json) : res json :=
  match v with
  | JDict d => Ok (default dflt (d !! k))
  | _ => Raise (AttributeError v "get")
  end.

(** [a or b] where [a] is a [str] or [None] and [b] is a [str]. *)
Definition py_or (a : option string) (b : string) : string :=
  match a with
  | Some s => if String.eqb s "" then b else s
  | None => b
  end.

(** ** Configuration, client object and request *)

(** The [config] dictionary given to the constructor; an absent key is
    [None]. *)
Record Config : Type := {
  MODEL : option string;
  API_KEY : option string;
  API_BASE : option string;
  TEMPERATURE : option spec_float;
  MAX_TOKENS : option Z;
  TIMEOUT : option Z;
  NUM_RETRIES : option Z;
}.

Record AIClient : Type := {
  model : string;
  api_key : string;
  api_base : string;
  temperature : spec_float;
  max_tokens : Z;
  timeout : Z;
  num_retries : Z;
}.

(** The keyword arguments [chat] looks at. *)
Record Kwargs : Type := {
  kw_temperature : option spec_float;
  kw_max_tokens : option Z;
  kw_num_retries : option Z;
}.

Definition no_kwargs : Kwargs :=
  {| kw_temperature := None; kw_max_tokens := None; kw_num_retries := None |}.

Record Message : Type := {
  role : string;
  content : string;
}.

(** The request body, the [payload] dictionary of the source. *)
Record Payload : Type := {
  p_model : string;
  p_messages : list Message;
  p_temperature : spec_float;
  p_top_p : spec_float;
  p_max_tokens : Z;
}.

(** The binary64 values of the literals [1.0] and [0.85]. *)
Definition float_1_0 : spec_float := S754_finite false 4503599627370496 (-52).
Definition float_0_85 : spec_float := S754_finite false 7656119366529843 (-53).

(** ** The Python runtime and the world *)

(** What the interpreter and the [json] module compute and the development
    does not look into. *)
Record runtime : Type := {
  json_loads : string → option json;   (* [None]: JSONDecodeError *)
  json_dumps : Payload → string;       (* [json.dumps(payload, ensure_ascii=False)] *)
  py_repr : json → string;             (* [str] of a float, list or dict *)
  exc_text : exn → string;             (* [str(e)] of an interpreter-raised exception *)
}.

(** The outcome of one call of [subprocess.run(..., check=True)]. *)
Inductive run_outcome : Type :=
| Completed (stdout : string)
| Failed (e : exn).

Record CompletedProcess : Type := { cp_stdout : string }.

Inductive event : Type :=
| EvRun (command : list string) (run_timeout : Z)
| EvSleep (seconds : Z).

(** The local variables [delay] and [result] of [_call_api_with_curl],
    and the world: how many subprocesses were run, and the log of effects. *)
Record state : Type := {
  delay : Z;
  result : option CompletedProcess;
  calls : nat;
  log : list event;
}.

Definition M (A : Type) : Type := state → res A * state.

#[global] Instance M_ret : MRet M := λ A a s, (Ok a, s).
#[global] Instance M_bind : MBind M := λ A B f m s,
  match m s with
  | (Ok a, s') => f a s'
  | (Raise e, s') => (Raise e, s')
  end.

Definition raise {A} (e : exn) : M A := λ s, (Raise e, s).

Definition lift {A} (r : res A) : M A := λ s, (r, s).

Definition get_delay : M Z := λ s, (Ok (delay s), s).

Definition set_delay (d : Z) : M unit := λ s,
  (Ok (), {| delay := d; result := result s; calls := calls s; log := log s |}).

Definition get_result : M (option CompletedProcess) := λ s, (Ok (result s), s).

Definition set_result (r : option CompletedProcess) : M unit := λ s,
  (Ok (), {| delay := delay s; result := r; calls := calls s; log := log s |}).

(** [time.sleep(d)]. *)
Definition time_sleep (d : Z) : M unit := λ s,
  (Ok (), {| delay := delay s; result := result s; calls := calls s;
             log := log s ++ [EvSleep d] |}).

(** [try: m except e: h e]; an exception raised by the handler propagates. *)
Definition try_except {A} (m : M A) (h : exn → M A) : M A := λ s,
  match m s with
  | (Ok a, s') => (Ok a, s')
  | (Raise e, s') => h e s'
  end.

(** ** The client *)

Section Client.
Context (rt : runtime).
(** [os.environ]. *)
Context (environ : gmap string string).
(** The outcome of the n-th call of [subprocess.run], counted from 0. *)
Context (endpoint : nat → run_outcome).

(** [os.getenv(name)] and [os.getenv(name, default)]. *)
Definition getenv (name : string) : option string := environ !! name.

Definition getenv_default (name dflt : string) : string :=
  default dflt (environ !! name).

(** [AIClient.__init__]. *)
Definition __init__ (config : Config) : AIClient :=
  {| model := default "deepseek/deepseek-chat" (MODEL config);
     api_key := py_or (API_KEY config) (getenv_default "AI_API_KEY" "");
     api_base := default "" (API_BASE config);
     temperature := default float_1_0 (TEMPERATURE config);
     max_tokens := default 5000 (MAX_TOKENS config);
     timeout := default 120 (TIMEOUT config);
     num_retries := default 2 (NUM_RETRIES config) |}.

(** [subprocess.run(command, ..., check=True, timeout=t)]: one more call
    is logged, and the endpoint decides how it ends. *)
Definition subprocess_run (command : list string) (t : Z) : M CompletedProcess := λ s,
  let s' := {| delay := delay s; result := result s; calls := S (calls s);
               log := log s ++ [EvRun command t] |} in
  match endpoint (calls s) with
  | Completed out => (Ok {| cp_stdout := out |}, s')
  | Failed e => (Raise e, s')
  end.

(** [json.loads(text)]. *)
Definition loads (text : string) : res json :=
  match json_loads rt text with
  | Some v => Ok v
  | None => Raise JSONDecodeError
  end.

(** [str(v)], as an f-string formats a parsed value. *)
Definition py_str (v : json) : string :=
  match v with
  | JStr s => s
  | JInt z => str_of_Z z
  | JNull => "None"
  | JBool true => "True"
  | JBool false => "False"
  | _ => py_repr rt v
  end.

(** [str(e)] for an exception caught by [except Exception as e]. *)
Definition str_exn (e : exn) : string :=
  match e with
  | ValueError msg => msg
  | OtherException msg => msg
  | _ => exc_text rt e
  end.

Section Call.
Context (self : AIClient) (messages : list Message) (kwargs : Kwargs).

Definition api_url : string :=
  getenv_default "LLM_API_URL" "https://ai-llm-gateway.amap.com/open_api/v1/chat".

(** The default of [os.getenv("AUTH_TOKEN", ...)]. *)
Definition default_token : string := "1Zx8EvYhC8FsyQXLqwKgXVRD".

(** [os.getenv("AUTH_TOKEN", "1Zx8...") or os.getenv("AI_API_KEY") or self.api_key]:
    the first operand that is truthy, else the last one. *)
Definition auth_token : string :=
  py_or (Some (getenv_default "AUTH_TOKEN" default_token))
    (py_or (getenv "AI_API_KEY") (api_key self)).

Definition payload : Payload :=
  let temperature := default (temperature self) (kw_temperature kwargs) in
  let max_tokens := default (max_tokens self) (kw_max_tokens kwargs) in
  {| p_model := "qwen3-max-preview";
     p_messages := messages;
     p_temperature := temperature;
     p_top_p := float_0_85;
     p_max_tokens := if bool_decide (max_tokens > 0) then max_tokens else 5000 |}.

Definition payload_json : string := json_dumps rt payload.

Definition max_retries : Z :=
  default (num_retries self) (kw_num_retries kwargs) + 1.

Definition max_delay : Z := 16.

Definition command : list string :=
  [ "curl";
    "--request"; "POST";
    "--url"; api_url;
    "--header"; "Content-Type: application/json";
    "--header"; "Authorization: Bearer " ++ auth_token;
    "--data"; payload_json;
    "--silent";
    "--connect-timeout"; "10";
    "--max-time"; str_of_Z (timeout self) ].

(** How one pass through the loop body ends when it does not raise:
    [return v] leaves the function, anything else goes on with the next
    value of [attempt]. *)
Inductive flow : Type :=
| Return (v : json)
| Next.

(** [time.sleep(delay); delay = min(delay * 2, max_delay)] *)
Definition backoff : M unit :=
  d ← get_delay;
  time_sleep d;;
  set_delay (Z.min (d * 2) max_delay).

(** The body of the [try] block. *)
Definition try_body (attempt : Z) : M flow :=
  r ← subprocess_run command (timeout self + 10);
  set_result (Some r);;
  response_data ← lift (loads (cp_stdout r));
  has_error ← lift (py_in "error" response_data);
  if has_error : bool then
    err ← lift (py_getitem response_data "error");
    error_msg ← lift (py_get err "message" (JStr "API返回未知错误"));
    if bool_decide (attempt + 1 < max_retries) then
      backoff;;
      mret Next                                          (* continue *)
    else
      raise (ValueError ("API调用失败: " ++ py_str error_msg))
  else
    choices ← lift (py_get response_data "choices" (JList []));
    empty ← lift (if negb (truthy choices) then Ok true
                  else
                    first ← py_getitem0 choices;
                    message ← py_get first "message" (JDict ∅);
                    text ← py_get message "content" JNull;
                    Ok (negb (truthy text)));
    if empty : bool then
      raise (ValueError "Empty or invalid response from LLM")
    else
      first ← lift (py_getitem0 choices);
      message ← lift (py_getitem first "message");
      text ← lift (py_getitem message "content");
      mret (Return text).

(** The four statements every [except] clause ends with. *)
Definition raise_or_backoff (attempt : Z) (error_info : string) : M flow :=
  if bool_decide (attempt + 1 = max_retries) then
    raise (ValueError error_info)
  else
    backoff;;
    mret Next.

Definition tried (attempt : Z) : string :=
  " (尝试 " ++ str_of_Z (attempt + 1) ++ "/" ++ str_of_Z max_retries ++ ")".

(** The [except] clauses, in the order of the source. *)
Definition except (attempt : Z) (e : exn) : M flow :=
  match e with
  | CalledProcessError returncode stderr stdout =>
      raise_or_backoff attempt
        ("API请求失败" ++ tried attempt ++ ": curl返回码 " ++ str_of_Z returncode
         ++ ". Stderr: " ++ stderr ++ ". Stdout: " ++ stdout)
  | TimeoutExpired =>
      raise_or_backoff attempt ("API请求超时" ++ tried attempt)
  | JSONDecodeError =>
      r ← get_result;
      let stdout_content :=
        match r with Some r => cp_stdout r | None => "N/A" end in
      raise_or_backoff attempt
        ("解析API响应失败" ++ tried attempt ++ ". 原始响应: " ++ stdout_content)
  | e =>
      raise_or_backoff attempt
        ("发生未知错误" ++ tried attempt ++ ": " ++ str_exn e)
  end.

(** One pass through the body of the [for] loop. *)
Definition iteration (attempt : Z) : M flow :=
  set_result None;;
  try_except (try_body attempt) (except attempt).

(** [for attempt in range(max_retries): ...] from [attempt] on, with
    [remaining] values of the range left, followed by the final
    [raise]. *)
Fixpoint attempts (remaining : nat) (attempt : Z) : M json :=
  match remaining with
  | O => raise (ValueError "达到最大重试次数后依然失败")
  | S remaining' =>
      f ← iteration attempt;
      match f with
      | Return v => mret v
      | Next => attempts remaining' (attempt + 1)
      end
  end.

(** [AIClient._call_api_with_curl]; [range(n)] has [Z.to_nat n]
    elements. *)
Definition _call_api_with_curl : M json :=
  set_delay 2;;
  attempts (Z.to_nat max_retries) 0.

(** [AIClient.chat]. *)
Definition chat : M json := _call_api_with_curl.

End Call.

(** [AIClient.validate_config]. *)
Definition validate_config (self : AIClient) : bool * string :=
  let auth_token :=
    py_or (Some (getenv_default "AUTH_TOKEN" "1Zx8EvYhC8FsyQXLqwKgXVRD"))
      (py_or (getenv "AI_API_KEY") (api_key self)) in
  (true, "").

End Client.

(** The state a call starts in: nothing has run, nothing was logged. *)
Definition initial : state :=
  {| delay := 0; result := None; calls := 0; log := [] |}.

(** The durations of the sleeps of a log, in order. *)
Definition sleeps (l : list event) : list Z :=
  omap (λ e, match e with EvSleep d => Some d | EvRun _ _ => None end) l.

(** The commands run in a log, in order. *)
Definition commands (l : list event) : list (list string) :=
  omap (λ e, match e with EvRun c _ => Some c | EvSleep _ => None end) l.

(** ** A mock runtime and mock endpoints, for concrete runs *)

(** The double quote character. *)
Definition dq : string := String "034"%char EmptyString.

(** [{"choices":[{"message":{"content":"hi there"}}]}] *)
Definition body_hi_there : string :=
  "{" ++ dq ++ "choices" ++ dq ++ ":[{" ++ dq ++ "message" ++ dq ++ ":{"
  ++ dq ++ "content" ++ dq ++ ":" ++ dq ++ "hi there" ++ dq ++ "}}]}".

(** [{"choices": []}] *)
Definition body_no_choices : string :=
  "{" ++ dq ++ "choices" ++ dq ++ ": []}".

(** [{"choices":[{"message":{"content":""}}]}] *)
Definition body_empty_content : string :=
  "{" ++ dq ++ "choices" ++ dq ++ ":[{" ++ dq ++ "message" ++ dq ++ ":{"
  ++ dq ++ "content" ++ dq ++ ":" ++ dq ++ dq ++ "}}]}".

(** [{"error": {"message": "X"}}] *)
Definition body_error_X : string :=
  "{" ++ dq ++ "error" ++ dq ++ ": {" ++ dq ++ "message" ++ dq ++ ": "
  ++ dq ++ "X" ++ dq ++ "}}".

Definition reply (text : json) : json :=
  JDict {[ "choices" := JList [JDict {[ "message" := JDict {[ "content" := text ]} ]}] ]}.

(** A [json.loads] that knows the four bodies above and rejects every other
    text. *)
Definition mock_loads (text : string) : option json :=
  if String.eqb text body_hi_there then Some (reply (JStr "hi there"))
  else if String.eqb text body_no_choices then Some (JDict {[ "choices" := JList [] ]})
  else if String.eqb text body_empty_content then Some (reply (JStr ""))
  else if String.eqb text body_error_X then
    Some (JDict {[ "error" := JDict {[ "message" := JStr "X" ]} ]})
  else None.

Definition mock_runtime : runtime :=
  {| json_loads := mock_loads;
     json_dumps := λ _, "{}";
     py_repr := λ _, "<object>";
     exc_text := λ _, "<exception>" |}.

(** The client built from an empty configuration. *)
Definition default_client : AIClient := __init__ ∅ (Build_Config None None None None None None None).

Definition hello : list Message := [ {| role := "user"; content := "hello" |} ].

(** An endpoint that answers every request with the same body. *)
Definition always (body : string) : nat → run_outcome := λ _, Completed body.

(** ** Vocabulary of the statements *)

(** The response of one attempt is well formed and its first choice has the
    content [v]: the subprocess completed, its output parses to an object
    without an [error] key whose [choices] is a list starting with an object
    whose [message] is an object whose [content] is [v]. *)
Definition well_formed_reply (rt : runtime) (o : run_outcome) (v : json) : Prop :=
  ∃ out d first rest message,
    o = Completed out ∧
    json_loads rt out = Some (JDict d) ∧
    d !! "error" = None ∧
    d !! "choices" = Some (JList (JDict first :: rest)) ∧
    first !! "message" = Some (JDict message) ∧
    message !! "content" = Some v.

(** The response carries usable content: it is well formed and the content
    is truthy (for a string: not empty). *)
Definition has_content (rt : runtime) (o : run_outcome) (v : json) : Prop :=
  well_formed_reply rt o v ∧ truthy v = true.

Definition no_content (rt : runtime) (o : run_outcome) : Prop :=
  ∀ v, ¬ has_content rt o v.

(** The delays of [k] consecutive backoffs that start from the delay [d]. *)
Fixpoint backoff_delays (d : Z) (k : nat) : list Z :=
  match k with
  | O => []
  | S k' => d :: backoff_delays (Z.min (d * 2) 16) k'
  end.

(** The failures the specification calls retryable: the transport failed,
    the call timed out, the body is not JSON, or the body is an object with
    an [error] field. *)
Inductive retryable (rt : runtime) : run_outcome → Prop :=
| retryable_transport returncode stderr stdout :
    retryable rt (Failed (CalledProcessError returncode stderr stdout))
| retryable_timeout :
    retryable rt (Failed TimeoutExpired)
| retryable_malformed out :
    json_loads rt out = None →
    retryable rt (Completed out)
| retryable_upstream out d :
    json_loads rt out = Some (JDict d) →
    is_Some (d !! "error") →
    retryable rt (Completed out).

(** Attempt number [i] (from 0) takes place: it is within the budget of
    [max] attempts and no earlier attempt has content. *)
Definition reached (rt : runtime) (endpoint : nat → run_outcome) (max : Z) (i : nat) : Prop :=
  Z.of_nat i < max ∧ ∀ j, (j < i)%nat → no_content rt (endpoint j).

(** The state after [time.sleep(delay); delay = min(delay * 2, max_delay)]. *)
Definition backed_off (s : state) : state :=
  {| delay := Z.min (delay s * 2) max_delay; result := result s; calls := calls s;
     log := log s ++ [EvSleep (delay s)] |}.

Section Post.
Context (rt : runtime) (environ : gmap string string) (endpoint : nat → run_outcome).
Context (self : AIClient) (messages : list Message) (kwargs : Kwargs).

(** The state after [result = subprocess.run(...)] has returned [out]. *)
Definition ran (s : state) (r : option CompletedProcess) : state :=
  {| delay := delay s; result := r; calls := S (calls s);
     log := log s ++ [EvRun (command rt environ self messages kwargs) (timeout self + 10)] |}.

(** The log of [n] consecutive attempts of which only the last one does
    not back off, starting with the delay [d]. *)
Fixpoint trace (d : Z) (n : nat) : list event :=
  match n with
  | O => []
  | S n' =>
      EvRun (command rt environ self messages kwargs) (timeout self + 10) ::
      match n' with
      | O => []
      | S _ => EvSleep d :: trace (Z.min (d * 2) 16) n'
      end
  end.

(** What the loop does when it is entered in state [s] with [remaining]
    attempts left: it makes [n] attempts, all but the last without
    content, and ends with the content of the last one or with a
    [ValueError]. *)
Definition loop_post (remaining : nat) (s : state) (out : res json * state) : Prop :=
  ∃ n : nat,
    (n ≤ remaining)%nat ∧
    (remaining ≠ O → n ≠ O) ∧
    calls out.2 = (calls s + n)%nat ∧
    log out.2 = (log s ++ trace (delay s) n)%list ∧
    (∀ i, (S i < n)%nat → no_content rt (endpoint (calls s + i))) ∧
    match out.1 with
    | Ok v => ∃ i, n = S i ∧ has_content rt (endpoint (calls s + i)) v
    | Raise e =>
        n = remaining ∧
        (∀ i, (i < n)%nat → no_content rt (endpoint (calls s + i))) ∧
        ∃ msg, e = ValueError msg ∧ msg ≠ ""
    end.

(** The three ways the [try] block can end. *)
Inductive body_post (attempt : Z) (s : state) : res flow * state → Prop :=
| body_return v r :
    has_content rt (endpoint (calls s)) v →
    body_post attempt s (Ok (Return v), ran s r)
| body_next r :
    no_content rt (endpoint (calls s)) →
    attempt + 1 < max_retries self kwargs →
    body_post attempt s (Ok Next, backed_off (ran s r))
| body_raise e r :
    no_content rt (endpoint (calls s)) →
    body_post attempt s (Raise e, ran s r).

(** What one pass through the loop body does to the state, in the three
    ways it can end. *)
Inductive iteration_post (attempt : Z) (s : state) : res flow * state → Prop :=
| post_return v s' :
    has_content rt (endpoint (calls s)) v →
    calls s' = S (calls s) →
    delay s' = delay s →
    log s' = (log s ++ [EvRun (command rt environ self messages kwargs) (timeout self + 10)])%list →
    iteration_post attempt s (Ok (Return v), s')
| post_next s' :
    no_content rt (endpoint (calls s)) →
    attempt + 1 ≠ max_retries self kwargs →
    calls s' = S (calls s) →
    delay s' = Z.min (delay s * 2) 16 →
    log s' = (log s ++ [EvRun (command rt environ self messages kwargs) (timeout self + 10);
                        EvSleep (delay s)])%list →
    iteration_post attempt s (Ok Next, s')
| post_raise msg s' :
    no_content rt (endpoint (calls s)) →
    attempt + 1 = max_retries self kwargs →
    msg ≠ "" →
    calls s' = S (calls s) →
    delay s' = delay s →
    log s' = (log s ++ [EvRun (command rt environ self messages kwargs) (timeout self + 10)])%list →
    iteration_post attempt s (Raise (ValueError msg), s').
End Post.

(** ** The diagnostic a failed call carries *)

(** The attempt counter of a diagnostic of attempt [k] out of [k]. *)
Definition attempt_tag (k : Z) : string :=
  " (尝试 " ++ str_of_Z k ++ "/" ++ str_of_Z k ++ ")".

(** The exceptions the interpreter raises on a response of the wrong
    shape. *)
Definition shape_error (e : exn) : Prop :=
  match e with
  | TypeError_not_container _ | TypeError_bad_index _ _ | KeyError _
  | IndexError | AttributeError _ _ => True
  | _ => False
  end.

(** The exceptions of [subprocess.run] that only the last [except] clause
    catches. *)
Definition unexpected (e : exn) : Prop :=
  match e with
  | CalledProcessError _ _ _ | TimeoutExpired | JSONDecodeError => False
  | _ => True
  end.

(** The response is an object with an [error] field that is an object. *)
Definition upstream_error (rt : runtime) (o : run_outcome) (e : gmap string json) : Prop :=
  ∃ out d,
    o = Completed out ∧
    json_loads rt out = Some (JDict d) ∧
    d !! "error" = Some (JDict e).

(** The response is an object without [error] field on which the test
    [not choices or not choices[0].get("message", {}).get("content")]
    succeeds: [choices] (an empty list when missing) is falsy, or it is a
    list whose first element is an object whose [message] (an empty object
    when missing) is an object whose [content] is missing or falsy. *)
Inductive blank_reply (rt : runtime) : run_outcome → Prop :=
| blank_choices out d :
    json_loads rt out = Some (JDict d) →
    d !! "error" = None →
    truthy (default (JList []) (d !! "choices")) = false →
    blank_reply rt (Completed out)
| blank_content out d first rest message :
    json_loads rt out = Some (JDict d) →
    d !! "error" = None →
    default (JList []) (d !! "choices") = JList (JDict first :: rest) →
    default (JDict ∅) (first !! "message") = JDict message →
    truthy (default JNull (message !! "content")) = false →
    blank_reply rt (Completed out).

(** [diagnostic rt k o msg]: [msg] is the diagnostic of a call whose last
    attempt, number [k] out of [k], had the outcome [o].  Each category of
    failure has its own text, and the text quotes what the failure brought:
    exit code and output of [curl], the body that did not parse, the message
    of the upstream error, the text of the exception. *)
Inductive diagnostic (rt : runtime) (k : Z) : run_outcome → string → Prop :=
| diagnostic_transport returncode stderr stdout :
    diagnostic rt k (Failed (CalledProcessError returncode stderr stdout))
      ("API请求失败" ++ attempt_tag k ++ ": curl返回码 " ++ str_of_Z returncode
       ++ ". Stderr: " ++ stderr ++ ". Stdout: " ++ stdout)
| diagnostic_timeout :
    diagnostic rt k (Failed TimeoutExpired)
      ("API请求超时" ++ attempt_tag k)
| diagnostic_malformed out :
    json_loads rt out = None →
    diagnostic rt k (Completed out)
      ("解析API响应失败" ++ attempt_tag k ++ ". 原始响应: " ++ out)
| diagnostic_decode_error_of_run :
    diagnostic rt k (Failed JSONDecodeError)
      ("解析API响应失败" ++ attempt_tag k ++ ". 原始响应: " ++ "N/A")
| diagnostic_upstream o e :
    upstream_error rt o e →
    diagnostic rt k o
      ("发生未知错误" ++ attempt_tag k ++ ": " ++ "API调用失败: "
       ++ py_str rt (default (JStr "API返回未知错误") (e !! "message")))
| diagnostic_blank o :
    blank_reply rt o →
    diagnostic rt k o
      ("发生未知错误" ++ attempt_tag k ++ ": " ++ "Empty or invalid response from LLM")
| diagnostic_unexpected e :
    unexpected e →
    diagnostic rt k (Failed e)
      ("发生未知错误" ++ attempt_tag k ++ ": " ++ str_exn rt e)
| diagnostic_shape out v e :
    json_loads rt out = Some v →
    (∀ e', ¬ upstream_error rt (Completed out) e') →
    ¬ blank_reply rt (Completed out) →
    no_content rt (Completed out) →
    shape_error e →
    diagnostic rt k (Completed out)
      ("发生未知错误" ++ attempt_tag k ++ ": " ++ exc_text rt e).

(** [raised rt o e]: on an attempt with outcome [o] that is the last of
    the budget, the [try] block raises [e]. *)
Inductive raised (rt : runtime) : run_outcome → exn → Prop :=
| raised_by_run e :
    raised rt (Failed e) e
| raised_malformed out :
    json_loads rt out = None →
    raised rt (Completed out) JSONDecodeError
| raised_upstream o e :
    upstream_error rt o e →
    raised rt o
      (ValueError ("API调用失败: "
                   ++ py_str rt (default (JStr "API返回未知错误") (e !! "message"))))
| raised_blank o :
    blank_reply rt o →
    raised rt o (ValueError "Empty or invalid response from LLM")
| raised_shape out v e :
    json_loads rt out = Some v →
    (∀ e', ¬ upstream_error rt (Completed out) e') →
    ¬ blank_reply rt (Completed out) →
    no_content rt (Completed out) →
    shape_error e →
    raised rt (Completed out) e.

(** ** Vocabulary of the further properties *)

(** A response that parses to an object without [error] key and yet has no
    usable content, in the five ways the test
    [not choices or not choices[0].get("message", {}).get("content")]
    of the source can find it so when the first choice is an object. *)
Inductive empty_response (rt : runtime) : run_outcome → Prop :=
| empty_no_choices out d :
    json_loads rt out = Some (JDict d) →
    d !! "error" = None →
    d !! "choices" = None →
    empty_response rt (Completed out)
| empty_choices out d :
    json_loads rt out = Some (JDict d) →
    d !! "error" = None →
    d !! "choices" = Some (JList []) →
    empty_response rt (Completed out)
| empty_no_message out d first rest :
    json_loads rt out = Some (JDict d) →
    d !! "error" = None →
    d !! "choices" = Some (JList (JDict first :: rest)) →
    first !! "message" = None →
    empty_response rt (Completed out)
| empty_no_content out d first rest message :
    json_loads rt out = Some (JDict d) →
    d !! "error" = None →
    d !! "choices" = Some (JList (JDict first :: rest)) →
    first !! "message" = Some (JDict message) →
    message !! "content" = None →
    empty_response rt (Completed out)
| empty_falsy_content out d first rest message v :
    json_loads rt out = Some (JDict d) →
    d !! "error" = None →
    d !! "choices" = Some (JList (JDict first :: rest)) →
    first !! "message" = Some (JDict message) →
    message !! "content" = Some v →
    truthy v = false →
    empty_response rt (Completed out).

(** A parsed value that is not an object. *)
Definition is_dict (v : json) : bool :=
  match v with
  | JDict _ => true
  | _ => false
  end.

(** The sum of a list of durations. *)
Definition total (l : list Z) : Z := foldr Z.add 0 l.

(** A runtime whose [json.loads] reads every text as the value [v]. *)
Definition reading_as (v : json) : runtime :=
  {| json_loads := λ _, Some v;
     json_dumps := λ _, "{}";
     py_repr := λ _, "<object>";
     exc_text := λ _, "<exception>" |}.

(** An endpoint on which every call of [subprocess.run] raises [e]. *)
Definition always_raising (e : exn) : nat → run_outcome := λ _, Failed e.

(** * Properties *)

(** Turn the tests the case analysis has decided into propositions. *)
Ltac decided :=
  repeat match goal with
    | H : bool_decide _ = true |- _ => apply bool_decide_eq_true_1 in H
    | H : bool_decide _ = false |- _ => apply bool_decide_eq_false_1 in H
    end.

(** A response that carries content contradicts what the case analysis of
    the loop body has found out about it. *)
Ltac no_content_tac :=
  let v := fresh "v" in
  intros v [(? & ? & ? & ? & ? & ? & ? & ? & ? & ? & ?) ?];
  simplify_eq/=;
  repeat match goal with
    | H : ?x = Some _, H' : context [?x] |- _ => rewrite H in H'; simpl in H'
    | H : ?x = true, H' : context [?x] |- _ => rewrite H in H'; simpl in H'
    | H : ¬ is_Some None |- _ => clear H
    end;
  simplify_eq/=; try done.

Lemma string_append_assoc (a b c : string) : (a ++ b) ++ c = a ++ b ++ c.
Proof.
  induction a as [|x a IH]; [reflexivity|].
  change (String x ((a ++ b) ++ c) = String x (a ++ b ++ c)).
  by rewrite IH.
Qed.

Section Iteration.
Context (rt : runtime) (environ : gmap string string) (endpoint : nat → run_outcome).
Context (self : AIClient) (messages : list Message) (kwargs : Kwargs).

Lemma except_spec attempt e s :
  ∃ msg, msg ≠ "" ∧
    except rt self kwargs attempt e s =
      if bool_decide (attempt + 1 = max_retries self kwargs)
      then (Raise (ValueError msg), s)
      else (Ok Next, backed_off s).
Proof.
  destruct e; cbn -[tried]; unfold raise_or_backoff;
    (eexists; split; [|by case_bool_decide]); discriminate.
Qed.

Lemma try_body_spec attempt s :
  body_post rt environ endpoint self messages kwargs attempt s
    (try_body rt environ endpoint self messages kwargs attempt s).
Proof.
  cbv [try_body subprocess_run mbind M_bind mret M_ret
       set_result get_result set_delay get_delay time_sleep lift raise backoff
       loads res_bind res_ret py_in py_get py_getitem py_getitem0 default].
  destruct (endpoint (calls s)) as [out|e] eqn:Ho;
    cbn [delay result calls log cp_stdout];
    [destruct (json_loads rt out) as [rd|] eqn:Hl; [destruct rd|]|].
  all: repeat (case_match; simplify_eq/=).
  all: decided.
  all: first
    [ apply body_raise; rewrite Ho; no_content_tac
    | apply body_next; [rewrite Ho; no_content_tac | done]
    | apply body_return; rewrite Ho ].
  split; [|by apply negb_false_iff].
  eexists _, _, _, _, _. split_and!; try done.
  by apply eq_None_not_Some.
Qed.

Lemma iteration_spec attempt s :
  iteration_post rt environ endpoint self messages kwargs attempt s
    (iteration rt environ endpoint self messages kwargs attempt s).
Proof.
  unfold iteration, try_except.
  change ((set_result None ≫= ?f) s) with (f () (set_result None s).2).
  pose proof (try_body_spec attempt (set_result None s).2) as Hb.
  cbn [set_result snd] in *.
  inversion Hb as [v r Hc Heq|r Hn Hlt Heq|e r Hn Heq]; cbn [calls] in *.
  - by apply post_return.
  - apply post_next; try done.
    + lia.
    + cbn. by rewrite <- app_assoc.
  - destruct (except_spec attempt e
      (ran rt environ self messages kwargs
         {| delay := delay s; result := None; calls := calls s; log := log s |} r))
      as (msg & Hmsg & ->).
    case_bool_decide.
    + by apply post_raise.
    + apply post_next; try done. cbn. by rewrite <- app_assoc.
Qed.

(** One unfolding of the loop. *)
Lemma attempts_S remaining attempt s :
  attempts rt environ endpoint self messages kwargs (S remaining) attempt s =
    match iteration rt environ endpoint self messages kwargs attempt s with
    | (Ok (Return v), s') => (Ok v, s')
    | (Ok Next, s') =>
        attempts rt environ endpoint self messages kwargs remaining (attempt + 1) s'
    | (Raise e, s') => (Raise e, s')
    end.
Proof.
  cbn [attempts]. unfold mbind at 1, M_bind.
  by destruct (iteration _ _ _ _ _ _ _ _) as [[[]|] ?].
Qed.

Lemma attempts_spec remaining :
  ∀ attempt s,
    (remaining ≠ O → attempt + Z.of_nat remaining = max_retries self kwargs) →
    loop_post rt environ endpoint self messages kwargs remaining s
      (attempts rt environ endpoint self messages kwargs remaining attempt s).
Proof.
  induction remaining as [|remaining IH]; intros attempt s Hmax.
  - exists O. cbn. rewrite app_nil_r.
    split_and!; try done; try lia. by eexists.
  - rewrite attempts_S.
    destruct (iteration_spec attempt s) as [v s' Hc Hcalls Hdelay Hlog
                                           |s' Hn Hne Hcalls Hdelay Hlog
                                           |msg s' Hn Heq Hmsg Hcalls Hdelay Hlog].
    + exists 1%nat. cbn. rewrite Hcalls, Hlog.
      split_and!; try done; try lia.
      exists O. by rewrite Nat.add_0_r.
    + destruct remaining as [|remaining]; [lia|].
      destruct (IH (attempt + 1) s') as (n & Hle & Hpos & Hc & Hl & Hearly & Hend); [lia|].
      destruct n as [|n]; [by destruct Hpos|].
      exists (S (S n)). rewrite Hc, Hl, Hcalls, Hlog, Hdelay.
      split_and!; try done; try lia.
      * cbn [trace]. by rewrite <- app_assoc.
      * intros [|i] Hi; [by rewrite Nat.add_0_r|].
        replace (calls s + S i)%nat with (S (calls s) + i)%nat by lia.
        rewrite <- Hcalls. apply Hearly. lia.
      * rewrite Hcalls in Hend. destruct (_.1); cbn in *.
        -- destruct Hend as (i & -> & Hi). exists (S i). split; [done|].
           by replace (calls s + S i)%nat with (S (calls s) + i)%nat by lia.
        -- destruct Hend as (-> & Hall & Hm). split_and!; try done.
           intros [|i] Hi; [by rewrite Nat.add_0_r|].
           replace (calls s + S i)%nat with (S (calls s) + i)%nat by lia.
           apply Hall. lia.
    + exists 1%nat. cbn. rewrite Hcalls, Hlog.
      assert (remaining = O) as -> by lia.
      split_and!; try done; try lia.
      * intros [|i] Hi; [by rewrite Nat.add_0_r|lia].
      * by eexists.
Qed.

(** The whole call, started in the [initial] state. *)
Lemma chat_spec :
  let out := chat rt environ endpoint self messages kwargs initial in
  ∃ n : nat,
    (n ≤ Z.to_nat (max_retries self kwargs))%nat ∧
    (0 < max_retries self kwargs → n ≠ O) ∧
    calls out.2 = n ∧
    log out.2 = trace rt environ self messages kwargs 2 n ∧
    (∀ i, (S i < n)%nat → no_content rt (endpoint i)) ∧
    match out.1 with
    | Ok v => ∃ i, n = S i ∧ has_content rt (endpoint i) v
    | Raise e =>
        n = Z.to_nat (max_retries self kwargs) ∧
        (∀ i, (i < n)%nat → no_content rt (endpoint i)) ∧
        ∃ msg, e = ValueError msg ∧ msg ≠ ""
    end.
Proof.
  cbv zeta. unfold chat, _call_api_with_curl.
  change ((set_delay 2 ≫= ?f) initial) with (f () (set_delay 2 initial).2).
  destruct (attempts_spec (Z.to_nat (max_retries self kwargs)) 0 (set_delay 2 initial).2)
    as (n & Hle & Hpos & Hc & Hl & Hearly & Hend); [lia|].
  exists n. split_and!; try done. lia.
Qed.

Lemma iteration_malformed attempt s out :
  endpoint (calls s) = Completed out →
  json_loads rt out = None →
  iteration rt environ endpoint self messages kwargs attempt s =
    if bool_decide (attempt + 1 = max_retries self kwargs)
    then (Raise (ValueError ("解析API响应失败" ++ tried self kwargs attempt
                             ++ ". 原始响应: " ++ out)),
          ran rt environ self messages kwargs s (Some {| cp_stdout := out |}))
    else (Ok Next,
          backed_off (ran rt environ self messages kwargs s (Some {| cp_stdout := out |}))).
Proof.
  intros Ho Hl.
  cbv [iteration try_except try_body subprocess_run mbind M_bind mret M_ret
       set_result lift loads].
  cbn [calls]. rewrite Ho. cbn [cp_stdout]. rewrite Hl.
  cbv [except get_result raise_or_backoff mbind M_bind]. cbn [result].
  by case_bool_decide.
Qed.

Lemma attempts_malformed (body : nat → string) remaining :
  (∀ i, endpoint i = Completed (body i)) →
  (∀ i, json_loads rt (body i) = None) →
  ∀ attempt s,
    attempt + Z.of_nat (S remaining) = max_retries self kwargs →
    (attempts rt environ endpoint self messages kwargs (S remaining) attempt s).1 =
      Raise (ValueError ("解析API响应失败 (尝试 "
                         ++ str_of_Z (max_retries self kwargs) ++ "/"
                         ++ str_of_Z (max_retries self kwargs)
                         ++ "). 原始响应: " ++ body (calls s + remaining)%nat)).
Proof.
  intros Ho Hl. induction remaining as [|remaining IH]; intros attempt s Hmax.
  - rewrite attempts_S, (iteration_malformed attempt s (body (calls s))) by done.
    rewrite bool_decide_eq_true_2 by lia.
    unfold tried. replace (attempt + 1) with (max_retries self kwargs) by lia.
    by rewrite Nat.add_0_r, !string_append_assoc.
  - rewrite attempts_S, (iteration_malformed attempt s (body (calls s))) by done.
    rewrite bool_decide_eq_false_2 by lia.
    rewrite IH by lia. cbn [calls backed_off ran].
    by replace (S (calls s) + remaining)%nat with (calls s + S remaining)%nat by lia.
Qed.
End Iteration.

Section Trace.
Context (rt : runtime) (environ : gmap string string).
Context (self : AIClient) (messages : list Message) (kwargs : Kwargs).

Lemma sleeps_trace n : ∀ d,
  sleeps (trace rt environ self messages kwargs d n) = backoff_delays d (pred n).
Proof.
  induction n as [|[|n] IH]; intros d; [done..|].
  change (d :: sleeps (trace rt environ self messages kwargs (Z.min (d * 2) 16) (S n))
          = d :: backoff_delays (Z.min (d * 2) 16) n).
  by rewrite IH.
Qed.

Lemma commands_trace n : ∀ d,
  commands (trace rt environ self messages kwargs d n) =
    replicate n (command rt environ self messages kwargs).
Proof.
  induction n as [|[|n] IH]; intros d; [done..|].
  change (command rt environ self messages kwargs ::
            commands (trace rt environ self messages kwargs (Z.min (d * 2) 16) (S n))
          = command rt environ self messages kwargs ::
              replicate (S n) (command rt environ self messages kwargs)).
  by rewrite IH.
Qed.
End Trace.

Lemma length_backoff_delays k : ∀ d, length (backoff_delays d k) = k.
Proof. induction k as [|k IH]; intros d; cbn; [done|by rewrite IH]. Qed.

(** Doubling from [min(2^j, 16)] under the cap gives [min(2^(j+1), 16)]. *)
Lemma backoff_delays_pow k : ∀ j : nat,
  backoff_delays (Z.min (2 ^ Z.of_nat j) 16) k =
    map (λ i : nat, Z.min (2 ^ Z.of_nat i) 16) (seq j k).
Proof.
  induction k as [|k IH]; intros j; cbn [backoff_delays seq map]; [done|].
  f_equal. rewrite <- IH. f_equal.
  rewrite Nat2Z.inj_succ, Z.pow_succ_r by lia.
  assert (0 < 2 ^ Z.of_nat j) by (apply Z.pow_pos_nonneg; lia). lia.
Qed.

Lemma well_formed_reply_inj rt o v v' :
  well_formed_reply rt o v → well_formed_reply rt o v' → v = v'.
Proof.
  intros (? & ? & ? & ? & ? & ? & ? & ? & ? & ? & ?)
         (? & ? & ? & ? & ? & ? & ? & ? & ? & ? & ?).
  by simplify_eq.
Qed.

Lemma retryable_no_content rt o : retryable rt o → no_content rt o.
Proof.
  intros Hr v [(? & ? & ? & ? & ? & ? & ? & ? & ? & ? & ?) _].
  destruct Hr as [| | |? ? ? [? ?]]; simplify_eq.
Qed.

(** * The claims *)

(** ** C1: an empty response is retried *)

(** C1.  The specification wants an empty response ([choices] empty, or the
    first choice without content) to fail at once, without retry and without
    sleep.  The [raise] of the source sits inside the [try] block, so its
    own [except Exception] clause catches it: with the default two retries
    and an endpoint that always answers [{"choices": []}], or always answers
    with a first choice whose content is the empty string, [chat] makes
    three attempts, sleeps 2 and 4 seconds between them, and only then
    fails, with the message of the catch-all clause. *)
Theorem empty_response_is_retried :
  let run body :=
    chat mock_runtime ∅ (always body) default_client hello no_kwargs initial in
  let failure :=
    Raise (ValueError "发生未知错误 (尝试 3/3): Empty or invalid response from LLM") in
  ((run body_no_choices).1 = failure ∧
   calls (run body_no_choices).2 = 3%nat ∧
   sleeps (log (run body_no_choices).2) = [2; 4]) ∧
  ((run body_empty_content).1 = failure ∧
   calls (run body_empty_content).2 = 3%nat ∧
   sleeps (log (run body_empty_content).2) = [2; 4]).
Proof. by vm_compute. Qed.

(** ** C2: precedence of the credentials *)

(** C2, as the specification states it, fails: with [AUTH_TOKEN] unset and
    [AI_API_KEY] set, the request does not use the value of [AI_API_KEY]. *)
Lemma auth_token_ignores_secondary_when_override_unset :
  ¬ (∀ (environ : gmap string string) (self : AIClient) (k : string),
       environ !! "AUTH_TOKEN" = None →
       environ !! "AI_API_KEY" = Some k →
       auth_token environ self = k).
Proof.
  intros H.
  specialize (H {[ "AI_API_KEY" := "secondary" ]} default_client "secondary").
  by vm_compute in H; specialize (H eq_refl eq_refl).
Qed.

(** C2, amended.  The token of the request is the value of [AUTH_TOKEN] when
    that variable is set and not empty, and the documented default token
    when it is unset; only when [AUTH_TOKEN] is set to the empty string does
    the chain go on to [AI_API_KEY] (when set and not empty) and then to
    the key stored in the client.  In particular, after [AUTH_TOKEN] is
    removed the request uses the default token, whatever [AI_API_KEY] is.
    Every subprocess [chat] runs carries that token in its
    [Authorization] header. *)
Theorem auth_token_precedence
    (rt : runtime) (environ : gmap string string) (endpoint : nat → run_outcome)
    (self : AIClient) (messages : list Message) (kwargs : Kwargs) :
  let out := chat rt environ endpoint self messages kwargs initial in
  auth_token environ self =
    match environ !! "AUTH_TOKEN" with
    | None => default_token
    | Some "" =>
        match environ !! "AI_API_KEY" with
        | None | Some "" => api_key self
        | Some k => k
        end
    | Some t => t
    end ∧
  auth_token (delete "AUTH_TOKEN" environ) self = default_token ∧
  command rt environ self messages kwargs !! 8%nat =
    Some ("Authorization: Bearer " ++ auth_token environ self) ∧
  commands (log out.2) = replicate (calls out.2) (command rt environ self messages kwargs).
Proof.
  cbv zeta. split_and!.
  - unfold auth_token, getenv_default, getenv, py_or.
    destruct (environ !! "AUTH_TOKEN") as [[|a t]|]; cbn; [|done..].
    by destruct (environ !! "AI_API_KEY") as [[|b k]|].
  - unfold auth_token, getenv_default. by rewrite lookup_delete_eq.
  - done.
  - destruct (chat_spec rt environ endpoint self messages kwargs)
      as (n & _ & _ & -> & -> & _). apply commands_trace.
Qed.

(** ** C3: the number of attempts *)

(** C3.  When the effective number of retries is [n >= 0] and every attempt
    ends in a retryable failure, [chat] makes exactly [n + 1] attempts, with
    [n] sleeps between them, and then fails. *)
Theorem retryable_failures_use_all_attempts
    (rt : runtime) (environ : gmap string string) (endpoint : nat → run_outcome)
    (self : AIClient) (messages : list Message) (kwargs : Kwargs) (n : Z) :
  default (num_retries self) (kw_num_retries kwargs) = n →
  (0 ≤ n)%Z →
  (∀ i, retryable rt (endpoint i)) →
  let out := chat rt environ endpoint self messages kwargs initial in
  Z.of_nat (calls out.2) = n + 1 ∧
  Z.of_nat (length (sleeps (log out.2))) = n ∧
  ∃ msg, out.1 = Raise (ValueError msg).
Proof.
  intros Hn Hpos Hretry. cbv zeta.
  destruct (chat_spec rt environ endpoint self messages kwargs)
    as (k & _ & _ & Hc & Hl & _ & Hend).
  rewrite Hc, Hl, sleeps_trace, length_backoff_delays.
  destruct (_.1) as [v|e].
  - destruct Hend as (i & _ & Hi).
    by destruct (retryable_no_content _ _ (Hretry i) v).
  - destruct Hend as (-> & _ & msg & -> & _).
    unfold max_retries. rewrite Hn. split_and!; [lia..|by eexists].
Qed.

Lemma retryable_failures_use_all_attempts_witness :
  let out := chat mock_runtime ∅ (always body_error_X) default_client hello no_kwargs initial in
  Z.of_nat (calls out.2) = 2 + 1 ∧
  Z.of_nat (length (sleeps (log out.2))) = 2 ∧
  ∃ msg, out.1 = Raise (ValueError msg).
Proof.
  apply (retryable_failures_use_all_attempts
           mock_runtime ∅ (always body_error_X) default_client hello no_kwargs 2).
  - reflexivity.
  - lia.
  - intros i. eapply retryable_upstream.
    + vm_compute. reflexivity.
    + eexists. vm_compute. reflexivity.
Defined.

(** ** C4: the backoff delays *)

(** C4.  In every run of [chat] the durations of the sleeps, in order, are
    [min(2^i, 16)] for [i = 1 .. k], where [k] is the number of sleeps:
    2, 4, 8, 16, 16, ... *)
Theorem sleeps_double_up_to_cap
    (rt : runtime) (environ : gmap string string) (endpoint : nat → run_outcome)
    (self : AIClient) (messages : list Message) (kwargs : Kwargs) :
  let out := chat rt environ endpoint self messages kwargs initial in
  sleeps (log out.2) =
    map (λ i : nat, Z.min (2 ^ Z.of_nat i) 16) (seq 1 (length (sleeps (log out.2)))).
Proof.
  cbv zeta.
  destruct (chat_spec rt environ endpoint self messages kwargs)
    as (k & _ & _ & _ & -> & _).
  rewrite sleeps_trace, length_backoff_delays.
  apply (backoff_delays_pow (pred k) 1).
Qed.

(** ** C6: the reply is returned as it is *)

(** C6.  When an attempt that takes place yields a well-formed response
    without [error] field whose first choice has the non-empty string [s]
    as content, [chat] returns exactly [s], straight after that attempt. *)
Theorem chat_returns_the_content
    (rt : runtime) (environ : gmap string string) (endpoint : nat → run_outcome)
    (self : AIClient) (messages : list Message) (kwargs : Kwargs)
    (i : nat) (s : string) :
  reached rt endpoint (max_retries self kwargs) i →
  well_formed_reply rt (endpoint i) (JStr s) →
  s ≠ "" →
  let out := chat rt environ endpoint self messages kwargs initial in
  out.1 = Ok (JStr s) ∧ calls out.2 = S i.
Proof.
  intros [Hbudget Hearlier] Hreply Hs. cbv zeta.
  assert (has_content rt (endpoint i) (JStr s)) as Hi.
  { split; [done|]. cbn. by destruct s. }
  destruct (chat_spec rt environ endpoint self messages kwargs)
    as (n & _ & _ & Hc & _ & Hearly & Hend).
  rewrite Hc. destruct (_.1) as [v|e].
  - destruct Hend as (k & -> & Hk).
    destruct (Nat.lt_trichotomy i k) as [Hlt|[->|Hgt]].
    + destruct (Hearly i ltac:(lia) _ Hi).
    + destruct Hk as [Hk _]. by rewrite (well_formed_reply_inj _ _ _ _ Hk Hreply).
    + destruct (Hearlier k Hgt _ Hk).
  - destruct Hend as (-> & Hall & _).
    destruct (Hall i ltac:(lia) _ Hi).
Qed.

(** The scenario of the specification: the endpoint answers
    [{"choices":[{"message":{"content":"hi there"}}]}] and [chat] returns
    ["hi there"] after one attempt. *)
Lemma chat_returns_the_content_witness :
  let out := chat mock_runtime ∅ (always body_hi_there) default_client hello no_kwargs initial in
  out.1 = Ok (JStr "hi there") ∧ calls out.2 = 1%nat.
Proof.
  apply (chat_returns_the_content
           mock_runtime ∅ (always body_hi_there) default_client hello no_kwargs 0 "hi there").
  - split; [reflexivity|]. intros j Hj. lia.
  - eexists _, _, _, _, _. split_and!;
      [reflexivity | vm_compute; reflexivity | vm_compute; reflexivity
      | vm_compute; reflexivity | vm_compute; reflexivity | vm_compute; reflexivity].
  - discriminate.
Defined.

(** ** C7: the request body *)

(** [float_0_85] is the binary64 number nearest to 85/100: it is within
    half a unit in the last place, [2^-54], of it. *)
Lemma float_0_85_is_nearest :
  float_0_85 = S754_finite false 7656119366529843 (-53) ∧
  (Z.abs (7656119366529843 * 100 - 85 * 2 ^ 53) * 2 ≤ 100)%Z.
Proof. split; [reflexivity|]. by vm_compute. Qed.

(** C7.  The payload has the fixed model name, whatever the model of the
    client is; [top_p] is 0.85; the messages are the given ones; the
    temperature is the keyword argument when given, else that of the
    client; [max_tokens] is the given value (keyword argument, else client)
    when it is positive and 5000 otherwise.  Every subprocess [chat] runs
    gets the serialised payload as its [--data] argument. *)
Theorem payload_is_built_from_the_call
    (rt : runtime) (environ : gmap string string) (endpoint : nat → run_outcome)
    (self : AIClient) (messages : list Message) (kwargs : Kwargs) :
  let out := chat rt environ endpoint self messages kwargs initial in
  let p := payload self messages kwargs in
  let given := default (max_tokens self) (kw_max_tokens kwargs) in
  p_model p = "qwen3-max-preview" ∧
  p_top_p p = float_0_85 ∧
  p_messages p = messages ∧
  p_temperature p = default (temperature self) (kw_temperature kwargs) ∧
  ((0 < given ∧ p_max_tokens p = given) ∨ (given ≤ 0 ∧ p_max_tokens p = 5000))%Z ∧
  command rt environ self messages kwargs !! 10%nat = Some (json_dumps rt p) ∧
  commands (log out.2) = replicate (calls out.2) (command rt environ self messages kwargs).
Proof.
  cbv zeta. split_and!; try done.
  - unfold payload. cbn. case_bool_decide; lia.
  - destruct (chat_spec rt environ endpoint self messages kwargs)
      as (n & _ & _ & -> & -> & _). apply commands_trace.
Qed.

(** ** C8: a body that is not JSON *)

(** C8.  When the effective number of retries is [n >= 0] and the body of
    every response fails to parse, [chat] goes through all [n + 1]
    attempts, backing off [n] times, and then fails with the parse-failure
    diagnostic of the last attempt, which quotes its body. *)
Theorem malformed_response_is_retried
    (rt : runtime) (environ : gmap string string) (endpoint : nat → run_outcome)
    (self : AIClient) (messages : list Message) (kwargs : Kwargs)
    (n : Z) (body : nat → string) :
  default (num_retries self) (kw_num_retries kwargs) = n →
  (0 ≤ n)%Z →
  (∀ i, endpoint i = Completed (body i)) →
  (∀ i, json_loads rt (body i) = None) →
  let out := chat rt environ endpoint self messages kwargs initial in
  out.1 = Raise (ValueError ("解析API响应失败 (尝试 " ++ str_of_Z (n + 1) ++ "/"
                             ++ str_of_Z (n + 1) ++ "). 原始响应: "
                             ++ body (Z.to_nat n))) ∧
  Z.of_nat (calls out.2) = n + 1 ∧
  sleeps (log out.2) = backoff_delays 2 (Z.to_nat n).
Proof.
  intros Hn Hpos Ho Hl. cbv zeta.
  assert (max_retries self kwargs = n + 1) as Hmax by (unfold max_retries; by rewrite Hn).
  split.
  - unfold chat, _call_api_with_curl.
    change ((set_delay 2 ≫= ?f) initial) with (f () (set_delay 2 initial).2).
    rewrite Hmax. replace (Z.to_nat (n + 1)) with (S (Z.to_nat n)) by lia.
    rewrite (attempts_malformed rt environ endpoint self messages kwargs body) by (done || lia).
    by rewrite Hmax.
  - destruct (chat_spec rt environ endpoint self messages kwargs)
      as (k & _ & _ & Hc & Hlog & _ & Hend).
    rewrite Hc, Hlog, sleeps_trace.
    destruct (_.1) as [v|e].
    + destruct Hend as (i & _ & Hi).
      destruct (retryable_no_content rt (endpoint i)) with (v := v); [|done].
      rewrite Ho. by apply retryable_malformed.
    + destruct Hend as (-> & _). rewrite Hmax.
      replace (Z.to_nat (n + 1)) with (S (Z.to_nat n)) by lia.
      split; [lia|done].
Qed.

Lemma malformed_response_is_retried_witness :
  let out := chat mock_runtime ∅ (always "<html>") default_client hello no_kwargs initial in
  out.1 = Raise (ValueError ("解析API响应失败 (尝试 " ++ str_of_Z (2 + 1) ++ "/"
                             ++ str_of_Z (2 + 1) ++ "). 原始响应: " ++ "<html>")) ∧
  Z.of_nat (calls out.2) = 2 + 1 ∧
  sleeps (log out.2) = backoff_delays 2 (Z.to_nat 2).
Proof.
  apply (malformed_response_is_retried
           mock_runtime ∅ (always "<html>") default_client hello no_kwargs 2 (λ _, "<html>")).
  - reflexivity.
  - lia.
  - reflexivity.
  - reflexivity.
Defined.

(** ** C9: validation of the configuration *)

(** C9.  [validate_config] answers [(True, "")] for every client and every
    environment. *)
Theorem validate_config_always_valid (environ : gmap string string) (self : AIClient) :
  validate_config environ self = (true, "").
Proof. reflexivity. Qed.

(** ** C10: a negative number of retries *)

(** C10.  When the effective number of retries is -1 or less, [chat] runs
    no subprocess and does not sleep: its log stays empty, and it raises
    the final "max retries" error of the path after the loop. *)
Theorem negative_retries_make_no_attempt
    (rt : runtime) (environ : gmap string string) (endpoint : nat → run_outcome)
    (self : AIClient) (messages : list Message) (kwargs : Kwargs) :
  (default (num_retries self) (kw_num_retries kwargs) ≤ -1)%Z →
  let out := chat rt environ endpoint self messages kwargs initial in
  out.1 = Raise (ValueError "达到最大重试次数后依然失败") ∧
  calls out.2 = O ∧
  log out.2 = [].
Proof.
  intros Hn. cbv zeta. unfold chat, _call_api_with_curl.
  change ((set_delay 2 ≫= ?f) initial) with (f () (set_delay 2 initial).2).
  replace (Z.to_nat (max_retries self kwargs)) with O by (unfold max_retries; lia).
  done.
Qed.

Lemma negative_retries_make_no_attempt_witness :
  let out := chat mock_runtime ∅ (always body_hi_there) default_client hello
               {| kw_temperature := None; kw_max_tokens := None; kw_num_retries := Some (-1) |}
               initial in
  out.1 = Raise (ValueError "达到最大重试次数后依然失败") ∧
  calls out.2 = O ∧
  log out.2 = [].
Proof.
  apply (negative_retries_make_no_attempt
           mock_runtime ∅ (always body_hi_there) default_client hello
           {| kw_temperature := None; kw_max_tokens := None; kw_num_retries := Some (-1) |}).
  cbn. lia.
Defined.

(** * Further properties of the client *)

Section LastAttempt.
Context (rt : runtime) (environ : gmap string string) (endpoint : nat → run_outcome).
Context (self : AIClient) (messages : list Message) (kwargs : Kwargs).

(** What [chat] does from any state [s], whatever [delay] and [result] an
    earlier call has left there. *)
Lemma chat_spec_from s :
  loop_post rt environ endpoint self messages kwargs
    (Z.to_nat (max_retries self kwargs)) (set_delay 2 s).2
    (chat rt environ endpoint self messages kwargs s).
Proof.
  unfold chat, _call_api_with_curl.
  change ((set_delay 2 ≫= ?f) s) with (f () (set_delay 2 s).2).
  apply attempts_spec. lia.
Qed.

(** Attempts without content that are not the last one lead to the last
    one. *)
Lemma attempts_reach_last remaining :
  ∀ attempt s,
    attempt + Z.of_nat (S remaining) = max_retries self kwargs →
    (∀ i, (i < remaining)%nat → no_content rt (endpoint (calls s + i))) →
    ∃ s', calls s' = (calls s + remaining)%nat ∧
      attempts rt environ endpoint self messages kwargs (S remaining) attempt s =
      attempts rt environ endpoint self messages kwargs 1 (attempt + Z.of_nat remaining) s'.
Proof.
  induction remaining as [|remaining IH]; intros attempt s Hmax Hnone.
  - exists s. split; [lia|]. by rewrite Z.add_0_r.
  - rewrite attempts_S.
    destruct (iteration_spec rt environ endpoint self messages kwargs attempt s)
      as [v s' Hc _ _ _|s' _ _ Hcalls _ _|msg s' _ Heq _ _ _ _].
    + destruct (Hnone O ltac:(lia) v). by rewrite Nat.add_0_r.
    + destruct (IH (attempt + 1) s') as (s'' & Hs'' & ->); [lia| |].
      * intros i Hi. rewrite Hcalls.
        replace (S (calls s) + i)%nat with (calls s + S i)%nat by lia.
        apply Hnone. lia.
      * exists s''. split; [lia|]. f_equal. lia.
    + lia.
Qed.

(** When the attempts before the last one have no content, the outcome of
    [chat] is that of the last pass through the loop body. *)
Lemma chat_ends_like_last_attempt (i : nat) (r : res json) :
  reached rt endpoint (max_retries self kwargs) i →
  Z.of_nat i + 1 = max_retries self kwargs →
  (∀ s, calls s = i →
        (iteration rt environ endpoint self messages kwargs (Z.of_nat i) s).1 =
          match r with Ok v => Ok (Return v) | Raise e => Raise e end) →
  let out := chat rt environ endpoint self messages kwargs initial in
  out.1 = r ∧ calls out.2 = S i.
Proof.
  intros [_ Hearlier] Hlast Hiter. cbv zeta. unfold chat, _call_api_with_curl.
  change ((set_delay 2 ≫= ?f) initial) with (f () (set_delay 2 initial).2).
  replace (Z.to_nat (max_retries self kwargs)) with (S i) by lia.
  destruct (attempts_reach_last i 0 (set_delay 2 initial).2) as (s' & Hs' & ->);
    [lia|done|].
  cbn in Hs'. rewrite attempts_S, Z.add_0_l.
  specialize (Hiter s' Hs').
  destruct (iteration_spec rt environ endpoint self messages kwargs (Z.of_nat i) s')
    as [v s'' _ Hcalls _ _|s'' _ Hne _ _ _|msg s'' _ _ _ Hcalls _ _];
    cbn in Hiter; [| lia |].
  - destruct r; simplify_eq. cbn. split; [done|lia].
  - destruct r; simplify_eq. cbn. split; [done|lia].
Qed.
End LastAttempt.

Section Diagnostics.
Context (rt : runtime) (environ : gmap string string) (endpoint : nat → run_outcome).
Context (self : AIClient) (messages : list Message) (kwargs : Kwargs).

Lemma iteration_transport attempt s returncode stderr stdout :
  endpoint (calls s) = Failed (CalledProcessError returncode stderr stdout) →
  attempt + 1 = max_retries self kwargs →
  (iteration rt environ endpoint self messages kwargs attempt s).1 =
    Raise (ValueError ("API请求失败" ++ tried self kwargs attempt ++ ": curl返回码 "
                       ++ str_of_Z returncode ++ ". Stderr: " ++ stderr
                       ++ ". Stdout: " ++ stdout)).
Proof.
  intros Ho Hlast.
  cbv [iteration try_except try_body subprocess_run mbind M_bind set_result].
  cbn [calls]. rewrite Ho.
  cbv [except raise_or_backoff]. rewrite bool_decide_eq_true_2 by done. reflexivity.
Qed.

Lemma iteration_timeout attempt s :
  endpoint (calls s) = Failed TimeoutExpired →
  attempt + 1 = max_retries self kwargs →
  (iteration rt environ endpoint self messages kwargs attempt s).1 =
    Raise (ValueError ("API请求超时" ++ tried self kwargs attempt)).
Proof.
  intros Ho Hlast.
  cbv [iteration try_except try_body subprocess_run mbind M_bind set_result].
  cbn [calls]. rewrite Ho.
  cbv [except raise_or_backoff]. rewrite bool_decide_eq_true_2 by done. reflexivity.
Qed.

Lemma iteration_upstream attempt s out d e :
  endpoint (calls s) = Completed out →
  json_loads rt out = Some (JDict d) →
  d !! "error" = Some (JDict e) →
  attempt + 1 = max_retries self kwargs →
  (iteration rt environ endpoint self messages kwargs attempt s).1 =
    Raise (ValueError ("发生未知错误" ++ tried self kwargs attempt ++ ": "
                       ++ "API调用失败: "
                       ++ py_str rt (default (JStr "API返回未知错误") (e !! "message")))).
Proof.
  intros Ho Hl He Hlast.
  cbv [iteration try_except try_body subprocess_run mbind M_bind mret M_ret
       set_result lift loads res_bind res_ret py_in py_get py_getitem raise].
  cbn [calls]. rewrite Ho. cbn [cp_stdout]. rewrite Hl, He. cbn [bool_decide decide_rel].
  rewrite bool_decide_eq_true_2 by eauto.
  rewrite bool_decide_eq_false_2 by lia.
  cbv [except raise_or_backoff str_exn]. rewrite bool_decide_eq_true_2 by done.
  reflexivity.
Qed.

Lemma iteration_upstream_not_object attempt s out d e :
  endpoint (calls s) = Completed out →
  json_loads rt out = Some (JDict d) →
  d !! "error" = Some e →
  is_dict e = false →
  attempt + 1 = max_retries self kwargs →
  (iteration rt environ endpoint self messages kwargs attempt s).1 =
    Raise (ValueError ("发生未知错误" ++ tried self kwargs attempt ++ ": "
                       ++ exc_text rt (AttributeError e "get"))).
Proof.
  intros Ho Hl He Hd Hlast.
  cbv [iteration try_except try_body subprocess_run mbind M_bind mret M_ret
       set_result lift loads res_bind res_ret py_in py_get py_getitem raise].
  cbn [calls]. rewrite Ho. cbn [cp_stdout]. rewrite Hl, He.
  rewrite bool_decide_eq_true_2 by eauto.
  destruct e; try discriminate;
    cbv [except raise_or_backoff str_exn]; rewrite bool_decide_eq_true_2 by done;
    reflexivity.
Qed.

Lemma iteration_empty attempt s :
  empty_response rt (endpoint (calls s)) →
  attempt + 1 = max_retries self kwargs →
  (iteration rt environ endpoint self messages kwargs attempt s).1 =
    Raise (ValueError ("发生未知错误" ++ tried self kwargs attempt ++ ": "
                       ++ "Empty or invalid response from LLM")).
Proof.
  intros Hempty Hlast.
  cbv [iteration try_except try_body subprocess_run mbind M_bind mret M_ret
       set_result lift loads res_bind res_ret py_in py_get py_getitem py_getitem0
       raise].
  cbn [calls].
  inversion Hempty as [out d Hl He Hc Ho|out d Hl He Hc Ho
                      |out d first rest Hl He Hc Hm Ho
                      |out d first rest message Hl He Hc Hm Hk Ho
                      |out d first rest message v Hl He Hc Hm Hk Hv Ho];
    clear Ho;
    repeat first
      [ progress cbn -[tried command]
      | match goal with
        | H : _ = Some _ |- _ => rewrite H
        | H : _ = None |- _ => rewrite H
        | H : truthy _ = false |- _ => rewrite H
        end
      | rewrite lookup_empty ];
    cbv [except raise_or_backoff str_exn]; rewrite bool_decide_eq_true_2 by done;
    reflexivity.
Qed.

Lemma iteration_not_object out v :
  json_loads rt out = Some v →
  is_dict v = false →
  ∃ e, (e = TypeError_not_container v
        ∨ e = TypeError_bad_index v (JStr "error")
        ∨ e = AttributeError v "get") ∧
    ∀ attempt s,
      endpoint (calls s) = Completed out →
      attempt + 1 = max_retries self kwargs →
      (iteration rt environ endpoint self messages kwargs attempt s).1 =
        Raise (ValueError ("发生未知错误" ++ tried self kwargs attempt ++ ": "
                           ++ exc_text rt e)).
Proof.
  intros Hl Hd.
  destruct v as [| | | |t|l|]; try discriminate;
    [| | | |destruct (bool_decide (is_Some (index 0 "error" t))) eqn:Hin
     |destruct (existsb (λ x, match x with JStr s => String.eqb s "error" | _ => false end) l)
        eqn:Hin];
    eexists; (split; revgoals;
      [ intros attempt s Ho Hlast;
        cbv [iteration try_except try_body subprocess_run mbind M_bind mret M_ret
             set_result lift loads res_bind res_ret py_in py_get py_getitem raise];
        cbn [calls]; rewrite Ho; cbn [cp_stdout]; rewrite Hl, ?Hin;
        cbv [except raise_or_backoff str_exn]; rewrite bool_decide_eq_true_2 by done;
        reflexivity
      | eauto ]).
Qed.
End Diagnostics.

(** ** Outcomes that carry no content *)

Lemma failed_no_content rt e : no_content rt (Failed e).
Proof. intros v [(? & ? & ? & ? & ? & ? & _) _]. discriminate. Qed.

Lemma empty_response_no_content rt o : empty_response rt o → no_content rt o.
Proof.
  intros He v [(? & ? & ? & ? & ? & ? & ? & ? & ? & ? & ?) Hv].
  destruct He; simplify_eq; congruence.
Qed.

Lemma not_object_no_content rt out v :
  json_loads rt out = Some v → is_dict v = false → no_content rt (Completed out).
Proof.
  intros Hl Hd w [(? & ? & ? & ? & ? & ? & ? & _) _]. simplify_eq.
Qed.

(** ** Delays *)

Lemma backoff_delays_bounds k : ∀ d,
  (2 ≤ d ≤ 16)%Z →
  Forall (λ x, 2 ≤ x ≤ 16)%Z (backoff_delays d k) ∧
  (total (backoff_delays d k) ≤ 16 * Z.of_nat k)%Z.
Proof.
  induction k as [|k IH]; intros d Hd; cbn [backoff_delays]; [by split|].
  destruct (IH (Z.min (d * 2) 16)) as [Hall Hsum]; [lia|].
  split; [by constructor|]. unfold total in *. cbn [foldr]. lia.
Qed.

Lemma sleeps_app l1 l2 : sleeps (l1 ++ l2) = (sleeps l1 ++ sleeps l2)%list.
Proof. apply omap_app. Qed.

(** ** X1: the number of attempts *)

(** X1.  With [n] the effective number of retries (keyword argument, else
    client), [chat] never runs more than [max(0, n + 1)] subprocesses, and
    it runs none exactly when [n + 1 <= 0]. *)
Theorem attempts_within_budget
    (rt : runtime) (environ : gmap string string) (endpoint : nat → run_outcome)
    (self : AIClient) (messages : list Message) (kwargs : Kwargs) :
  let out := chat rt environ endpoint self messages kwargs initial in
  let n := default (num_retries self) (kw_num_retries kwargs) in
  (Z.of_nat (calls out.2) ≤ Z.max 0 (n + 1))%Z ∧
  (calls out.2 = O ↔ (n + 1 ≤ 0)%Z).
Proof.
  cbv zeta.
  destruct (chat_spec rt environ endpoint self messages kwargs)
    as (k & Hle & Hpos & -> & _).
  unfold max_retries in *. split; [lia|]. split; [|lia].
  intros ->. destruct (decide (0 < default (num_retries self) (kw_num_retries kwargs) + 1)%Z);
    [by destruct Hpos|lia].
Qed.

(** ** X2: the time spent sleeping *)

(** X2.  Every sleep of [chat] lasts between 2 and 16 seconds, and all its
    sleeps together last at most [16 * max(0, n)] seconds, [n] being the
    effective number of retries. *)
Theorem total_sleep_bounded
    (rt : runtime) (environ : gmap string string) (endpoint : nat → run_outcome)
    (self : AIClient) (messages : list Message) (kwargs : Kwargs) :
  let out := chat rt environ endpoint self messages kwargs initial in
  let n := default (num_retries self) (kw_num_retries kwargs) in
  Forall (λ d, 2 ≤ d ≤ 16)%Z (sleeps (log out.2)) ∧
  (total (sleeps (log out.2)) ≤ 16 * Z.max 0 n)%Z.
Proof.
  cbv zeta.
  destruct (chat_spec rt environ endpoint self messages kwargs)
    as (k & Hle & _ & _ & -> & _).
  rewrite sleeps_trace.
  destruct (backoff_delays_bounds (pred k) 2) as [Hall Hsum]; [lia|].
  split; [done|]. unfold max_retries in *. lia.
Qed.

(** ** X3: the shape of the log *)

(** X3.  From whatever state an earlier call has left, [chat] adds to the
    log one subprocess per attempt and one sleep between two consecutive
    attempts, and nothing else: no sleep before the first attempt, none
    after the last, and the delays start again at 2, whatever [delay] was
    before. *)
Theorem log_alternates_from_any_state
    (rt : runtime) (environ : gmap string string) (endpoint : nat → run_outcome)
    (self : AIClient) (messages : list Message) (kwargs : Kwargs) (s : state) :
  let out := chat rt environ endpoint self messages kwargs s in
  let made := (calls out.2 - calls s)%nat in
  (calls s ≤ calls out.2)%nat ∧
  log out.2 = (log s ++ trace rt environ self messages kwargs 2 made)%list ∧
  sleeps (log out.2) = (sleeps (log s) ++ backoff_delays 2 (pred made))%list ∧
  commands (log out.2) =
    (commands (log s) ++ replicate made (command rt environ self messages kwargs))%list.
Proof.
  cbv zeta.
  destruct (chat_spec_from rt environ endpoint self messages kwargs s)
    as (k & _ & _ & Hc & Hl & _).
  cbn [set_delay snd calls log delay] in Hc, Hl. rewrite Hc, Hl.
  replace (calls s + k - calls s)%nat with k by lia.
  split_and!; [lia|done| |].
  - by rewrite sleeps_app, sleeps_trace.
  - unfold commands at 1. rewrite omap_app. fold (commands (log s)).
    f_equal. apply commands_trace.
Qed.

(** ** X4 to X9: the diagnostic of the last attempt *)

(** Finish a proof about the last attempt: [chat] ends like that attempt,
    whose outcome [lemma] gives. *)
Tactic Notation "by_last_attempt" uconstr(lemma) :=
  let s := fresh "s" in
  let Hs := fresh "Hs" in
  intros s Hs; rewrite lemma by (rewrite ?Hs; done || lia);
  unfold tried;
  repeat match goal with H : _ + 1 = max_retries _ _ |- _ => rewrite <- H; clear H end;
  rewrite ?string_append_assoc; reflexivity.

(** X4.  When the last attempt of the budget is reached and [curl] exits
    with a non-zero code there, [chat] raises the transport diagnostic of
    that attempt: attempt number, budget, exit code, stderr and stdout. *)
Theorem transport_failure_diagnostic
    (rt : runtime) (environ : gmap string string) (endpoint : nat → run_outcome)
    (self : AIClient) (messages : list Message) (kwargs : Kwargs)
    (i : nat) (returncode : Z) (stderr stdout : string) :
  reached rt endpoint (max_retries self kwargs) i →
  Z.of_nat i + 1 = max_retries self kwargs →
  endpoint i = Failed (CalledProcessError returncode stderr stdout) →
  let out := chat rt environ endpoint self messages kwargs initial in
  out.1 = Raise (ValueError ("API请求失败 (尝试 " ++ str_of_Z (Z.of_nat i + 1) ++ "/"
                             ++ str_of_Z (Z.of_nat i + 1) ++ "): curl返回码 "
                             ++ str_of_Z returncode ++ ". Stderr: " ++ stderr
                             ++ ". Stdout: " ++ stdout)) ∧
  calls out.2 = S i.
Proof.
  intros Hreach Hlast Ho.
  apply (chat_ends_like_last_attempt rt environ endpoint self messages kwargs i
           (Raise (ValueError _))); [done..|].
  by_last_attempt (iteration_transport rt environ endpoint self messages kwargs
                     (Z.of_nat i) _ returncode stderr stdout).
Qed.

Lemma transport_failure_diagnostic_witness :
  let out := chat mock_runtime ∅ (always_raising (CalledProcessError 7 "refused" ""))
               default_client hello no_kwargs initial in
  out.1 = Raise (ValueError
                   "API请求失败 (尝试 3/3): curl返回码 7. Stderr: refused. Stdout: ") ∧
  calls out.2 = 3%nat.
Proof.
  apply (transport_failure_diagnostic mock_runtime ∅
           (always_raising (CalledProcessError 7 "refused" ""))
           default_client hello no_kwargs 2 7 "refused" "").
  - split; [reflexivity|]. intros j _. apply failed_no_content.
  - reflexivity.
  - reflexivity.
Defined.

(** X5.  When the last attempt of the budget is reached and the subprocess
    times out there, [chat] raises the timeout diagnostic of that attempt. *)
Theorem timeout_diagnostic
    (rt : runtime) (environ : gmap string string) (endpoint : nat → run_outcome)
    (self : AIClient) (messages : list Message) (kwargs : Kwargs) (i : nat) :
  reached rt endpoint (max_retries self kwargs) i →
  Z.of_nat i + 1 = max_retries self kwargs →
  endpoint i = Failed TimeoutExpired →
  let out := chat rt environ endpoint self messages kwargs initial in
  out.1 = Raise (ValueError ("API请求超时 (尝试 " ++ str_of_Z (Z.of_nat i + 1) ++ "/"
                             ++ str_of_Z (Z.of_nat i + 1) ++ ")")) ∧
  calls out.2 = S i.
Proof.
  intros Hreach Hlast Ho.
  apply (chat_ends_like_last_attempt rt environ endpoint self messages kwargs i
           (Raise (ValueError _))); [done..|].
  by_last_attempt (iteration_timeout rt environ endpoint self messages kwargs
                     (Z.of_nat i) _).
Qed.

Lemma timeout_diagnostic_witness :
  let out := chat mock_runtime ∅ (always_raising TimeoutExpired)
               default_client hello no_kwargs initial in
  out.1 = Raise (ValueError "API请求超时 (尝试 3/3)") ∧
  calls out.2 = 3%nat.
Proof.
  apply (timeout_diagnostic mock_runtime ∅ (always_raising TimeoutExpired)
           default_client hello no_kwargs 2).
  - split; [reflexivity|]. intros j _. apply failed_no_content.
  - reflexivity.
  - reflexivity.
Defined.

(** X6.  When the last attempt of the budget is reached and its response is
    an object whose [error] field is an object, [chat] raises the message of
    the catch-all clause around "API调用失败: " and the [message] of the
    error, or "API返回未知错误" when the error has no [message] key. *)
Theorem upstream_error_diagnostic
    (rt : runtime) (environ : gmap string string) (endpoint : nat → run_outcome)
    (self : AIClient) (messages : list Message) (kwargs : Kwargs)
    (i : nat) (body : string) (d e : gmap string json) :
  reached rt endpoint (max_retries self kwargs) i →
  Z.of_nat i + 1 = max_retries self kwargs →
  endpoint i = Completed body →
  json_loads rt body = Some (JDict d) →
  d !! "error" = Some (JDict e) →
  let out := chat rt environ endpoint self messages kwargs initial in
  out.1 = Raise (ValueError ("发生未知错误 (尝试 " ++ str_of_Z (Z.of_nat i + 1) ++ "/"
                             ++ str_of_Z (Z.of_nat i + 1) ++ "): API调用失败: "
                             ++ py_str rt (default (JStr "API返回未知错误")
                                             (e !! "message")))) ∧
  calls out.2 = S i.
Proof.
  intros Hreach Hlast Ho Hl He.
  apply (chat_ends_like_last_attempt rt environ endpoint self messages kwargs i
           (Raise (ValueError _))); [done..|].
  by_last_attempt (iteration_upstream rt environ endpoint self messages kwargs
                     (Z.of_nat i) _ body d e).
Qed.

Lemma upstream_error_diagnostic_witness :
  let out := chat mock_runtime ∅ (always body_error_X) default_client hello no_kwargs
               initial in
  out.1 = Raise (ValueError ("发生未知错误 (尝试 3/3): API调用失败: "
                             ++ py_str mock_runtime
                                  (default (JStr "API返回未知错误")
                                     (({[ "message" := JStr "X" ]} : gmap string json)
                                        !! "message")))) ∧
  calls out.2 = 3%nat.
Proof.
  apply (upstream_error_diagnostic mock_runtime ∅ (always body_error_X)
           default_client hello no_kwargs 2 body_error_X
           {[ "error" := JDict {[ "message" := JStr "X" ]} ]}
           {[ "message" := JStr "X" ]}).
  - split; [reflexivity|]. intros j _. apply retryable_no_content.
    eapply retryable_upstream; [by vm_compute|]. eexists. by vm_compute.
  - reflexivity.
  - reflexivity.
  - by vm_compute.
  - by vm_compute.
Defined.

(** X7.  When the last attempt of the budget is reached and its response is
    an object whose [error] field is not itself an object (a plain string,
    say), the call of [.get] on it fails and [chat] raises the message of
    the catch-all clause with the text of that attribute error; the error
    value itself is not formatted into the diagnostic by the client. *)
Theorem upstream_error_not_object_diagnostic
    (rt : runtime) (environ : gmap string string) (endpoint : nat → run_outcome)
    (self : AIClient) (messages : list Message) (kwargs : Kwargs)
    (i : nat) (body : string) (d : gmap string json) (e : json) :
  reached rt endpoint (max_retries self kwargs) i →
  Z.of_nat i + 1 = max_retries self kwargs →
  endpoint i = Completed body →
  json_loads rt body = Some (JDict d) →
  d !! "error" = Some e →
  is_dict e = false →
  let out := chat rt environ endpoint self messages kwargs initial in
  out.1 = Raise (ValueError ("发生未知错误 (尝试 " ++ str_of_Z (Z.of_nat i + 1) ++ "/"
                             ++ str_of_Z (Z.of_nat i + 1) ++ "): "
                             ++ exc_text rt (AttributeError e "get"))) ∧
  calls out.2 = S i.
Proof.
  intros Hreach Hlast Ho Hl He Hd.
  apply (chat_ends_like_last_attempt rt environ endpoint self messages kwargs i
           (Raise (ValueError _))); [done..|].
  by_last_attempt (iteration_upstream_not_object rt environ endpoint self messages kwargs
                     (Z.of_nat i) _ body d e).
Qed.

Lemma upstream_error_not_object_diagnostic_witness :
  let rt := reading_as (JDict {[ "error" := JStr "rate limited" ]}) in
  let out := chat rt ∅ (always "{}") default_client hello no_kwargs initial in
  out.1 = Raise (ValueError ("发生未知错误 (尝试 3/3): "
                             ++ exc_text rt (AttributeError (JStr "rate limited") "get"))) ∧
  calls out.2 = 3%nat.
Proof.
  apply (upstream_error_not_object_diagnostic
           (reading_as (JDict {[ "error" := JStr "rate limited" ]})) ∅ (always "{}")
           default_client hello no_kwargs 2 "{}"
           {[ "error" := JStr "rate limited" ]} (JStr "rate limited")).
  - split; [reflexivity|]. intros j _. apply retryable_no_content.
    eapply retryable_upstream; [reflexivity|]. eexists. by vm_compute.
  - reflexivity.
  - reflexivity.
  - reflexivity.
  - by vm_compute.
  - reflexivity.
Defined.

(** X8.  When the last attempt of the budget is reached and its response is
    an object without [error] key and without usable content ([choices]
    missing or empty, first choice without [message], message without
    [content], or content falsy), [chat] raises the message of the catch-all
    clause around "Empty or invalid response from LLM". *)
Theorem empty_response_diagnostic
    (rt : runtime) (environ : gmap string string) (endpoint : nat → run_outcome)
    (self : AIClient) (messages : list Message) (kwargs : Kwargs) (i : nat) :
  reached rt endpoint (max_retries self kwargs) i →
  Z.of_nat i + 1 = max_retries self kwargs →
  empty_response rt (endpoint i) →
  let out := chat rt environ endpoint self messages kwargs initial in
  out.1 = Raise (ValueError ("发生未知错误 (尝试 " ++ str_of_Z (Z.of_nat i + 1) ++ "/"
                             ++ str_of_Z (Z.of_nat i + 1)
                             ++ "): Empty or invalid response from LLM")) ∧
  calls out.2 = S i.
Proof.
  intros Hreach Hlast Ho.
  apply (chat_ends_like_last_attempt rt environ endpoint self messages kwargs i
           (Raise (ValueError _))); [done..|].
  by_last_attempt (iteration_empty rt environ endpoint self messages kwargs
                     (Z.of_nat i) _).
Qed.

Lemma empty_response_diagnostic_witness :
  let out := chat (reading_as (reply (JInt 0))) ∅ (always "{}") default_client hello
               no_kwargs initial in
  out.1 = Raise (ValueError "发生未知错误 (尝试 3/3): Empty or invalid response from LLM") ∧
  calls out.2 = 3%nat.
Proof.
  assert (∀ j, empty_response (reading_as (reply (JInt 0))) (always "{}" j)) as Hempty.
  { intros j. eapply empty_falsy_content; [reflexivity|by vm_compute..|reflexivity]. }
  apply (empty_response_diagnostic (reading_as (reply (JInt 0))) ∅ (always "{}")
           default_client hello no_kwargs 2).
  - split; [reflexivity|]. intros j _. apply empty_response_no_content, Hempty.
  - reflexivity.
  - apply Hempty.
Defined.

(** X9.  When the last attempt of the budget is reached and its body is
    valid JSON but not an object (a list, a string, a number, [true],
    [null]), [chat] raises the message of the catch-all clause with the text
    of the type or attribute error the interpreter raises on that value;
    such a body is never returned as a reply. *)
Theorem body_not_object_diagnostic
    (rt : runtime) (environ : gmap string string) (endpoint : nat → run_outcome)
    (self : AIClient) (messages : list Message) (kwargs : Kwargs)
    (i : nat) (body : string) (v : json) :
  reached rt endpoint (max_retries self kwargs) i →
  Z.of_nat i + 1 = max_retries self kwargs →
  endpoint i = Completed body →
  json_loads rt body = Some v →
  is_dict v = false →
  let out := chat rt environ endpoint self messages kwargs initial in
  (∃ e, (e = TypeError_not_container v
         ∨ e = TypeError_bad_index v (JStr "error")
         ∨ e = AttributeError v "get") ∧
     out.1 = Raise (ValueError ("发生未知错误 (尝试 " ++ str_of_Z (Z.of_nat i + 1) ++ "/"
                                ++ str_of_Z (Z.of_nat i + 1) ++ "): "
                                ++ exc_text rt e))) ∧
  calls out.2 = S i.
Proof.
  intros Hreach Hlast Ho Hl Hd. cbv zeta.
  destruct (iteration_not_object rt environ endpoint self messages kwargs body v)
    as (e & He & Hiter); [done..|].
  assert (let out := chat rt environ endpoint self messages kwargs initial in
          out.1 = Raise (ValueError ("发生未知错误 (尝试 " ++ str_of_Z (Z.of_nat i + 1) ++ "/"
                                     ++ str_of_Z (Z.of_nat i + 1) ++ "): "
                                     ++ exc_text rt e)) ∧ calls out.2 = S i) as [H1 H2].
  { apply (chat_ends_like_last_attempt rt environ endpoint self messages kwargs i
             (Raise (ValueError _))); [done..|].
    by_last_attempt (Hiter (Z.of_nat i) _). }
  split; [|done]. by exists e.
Qed.

Lemma body_not_object_diagnostic_witness :
  let rt := reading_as (JList [JStr "hi there"]) in
  let out := chat rt ∅ (always "[]") default_client hello no_kwargs initial in
  (∃ e, (e = TypeError_not_container (JList [JStr "hi there"])
         ∨ e = TypeError_bad_index (JList [JStr "hi there"]) (JStr "error")
         ∨ e = AttributeError (JList [JStr "hi there"]) "get") ∧
     out.1 = Raise (ValueError ("发生未知错误 (尝试 " ++ str_of_Z (Z.of_nat 2 + 1) ++ "/"
                                ++ str_of_Z (Z.of_nat 2 + 1) ++ "): "
                                ++ exc_text rt e))) ∧
  calls out.2 = 3%nat.
Proof.
  apply (body_not_object_diagnostic (reading_as (JList [JStr "hi there"])) ∅ (always "[]")
           default_client hello no_kwargs 2 "[]" (JList [JStr "hi there"])).
  - split; [reflexivity|]. intros j _.
    by apply (not_object_no_content _ "[]" (JList [JStr "hi there"])).
  - reflexivity.
  - reflexivity.
  - reflexivity.
  - reflexivity.
Defined.

(** ** X10: content of any type *)

(** X10.  When an attempt that takes place yields a well-formed response
    whose content is any truthy value, a string or not (a number, a list,
    an object), [chat] returns that value unchanged straight after that
    attempt, having slept once before each retry: [i] sleeps for attempt
    number [i]. *)
Theorem chat_returns_any_truthy_content
    (rt : runtime) (environ : gmap string string) (endpoint : nat → run_outcome)
    (self : AIClient) (messages : list Message) (kwargs : Kwargs)
    (i : nat) (v : json) :
  reached rt endpoint (max_retries self kwargs) i →
  well_formed_reply rt (endpoint i) v →
  truthy v = true →
  let out := chat rt environ endpoint self messages kwargs initial in
  out.1 = Ok v ∧
  calls out.2 = S i ∧
  sleeps (log out.2) = backoff_delays 2 i.
Proof.
  intros [Hbudget Hearlier] Hreply Hv. cbv zeta.
  assert (has_content rt (endpoint i) v) as Hi by done.
  destruct (chat_spec rt environ endpoint self messages kwargs)
    as (n & _ & _ & Hc & Hl & Hearly & Hend).
  rewrite Hc, Hl, sleeps_trace. destruct (_.1) as [w|e].
  - destruct Hend as (k & -> & Hk).
    destruct (Nat.lt_trichotomy i k) as [Hlt|[->|Hgt]].
    + destruct (Hearly i ltac:(lia) _ Hi).
    + destruct Hk as [Hk _]. by rewrite (well_formed_reply_inj _ _ _ _ Hk Hreply).
    + destruct (Hearlier k Hgt _ Hk).
  - destruct Hend as (-> & Hall & _).
    destruct (Hall i ltac:(lia) _ Hi).
Qed.

Lemma chat_returns_any_truthy_content_witness :
  let out := chat (reading_as (reply (JInt 5))) ∅ (always "{}") default_client hello
               no_kwargs initial in
  out.1 = Ok (JInt 5) ∧
  calls out.2 = 1%nat ∧
  sleeps (log out.2) = backoff_delays 2 0.
Proof.
  apply (chat_returns_any_truthy_content (reading_as (reply (JInt 5))) ∅ (always "{}")
           default_client hello no_kwargs 0 (JInt 5)).
  - split; [reflexivity|]. intros j Hj. lia.
  - eexists _, _, _, _, _.
    split_and!; [reflexivity|reflexivity|by vm_compute..].
  - reflexivity.
Defined.

(** ** X11: what the request does not depend on *)

(** X11.  The [model] and the [api_base] of the client play no part in
    [chat]: two clients that agree on key, temperature, token limit,
    timeout and number of retries behave the same, subprocess by
    subprocess. *)
Theorem chat_ignores_model_and_api_base
    (rt : runtime) (environ : gmap string string) (endpoint : nat → run_outcome)
    (self self' : AIClient) (messages : list Message) (kwargs : Kwargs) (s : state) :
  api_key self = api_key self' →
  temperature self = temperature self' →
  max_tokens self = max_tokens self' →
  timeout self = timeout self' →
  num_retries self = num_retries self' →
  chat rt environ endpoint self messages kwargs s =
  chat rt environ endpoint self' messages kwargs s.
Proof.
  destruct self, self'. cbn. intros -> -> -> -> ->. reflexivity.
Qed.

Lemma chat_ignores_model_and_api_base_witness :
  chat mock_runtime ∅ (always body_hi_there) default_client hello no_kwargs initial =
  chat mock_runtime ∅ (always body_hi_there)
    (__init__ ∅ (Build_Config (Some "gpt-4") None (Some "https://example.org/v1")
                   None None None None))
    hello no_kwargs initial.
Proof.
  apply (chat_ignores_model_and_api_base mock_runtime ∅ (always body_hi_there)
           default_client
           (__init__ ∅ (Build_Config (Some "gpt-4") None (Some "https://example.org/v1")
                          None None None None))
           hello no_kwargs initial); reflexivity.
Defined.

(** ** X12: the default budget *)

(** X12.  A client built from a configuration without [NUM_RETRIES], called
    without a [num_retries] keyword argument, makes at least one and at
    most three attempts, and its sleeps are an initial part of 2, 4: at
    most six seconds of backoff. *)
Theorem default_budget
    (rt : runtime) (environ : gmap string string) (endpoint : nat → run_outcome)
    (config : Config) (messages : list Message) (kwargs : Kwargs) :
  NUM_RETRIES config = None →
  kw_num_retries kwargs = None →
  let out := chat rt environ endpoint (__init__ environ config) messages kwargs initial in
  (1 ≤ calls out.2 ≤ 3)%nat ∧
  sleeps (log out.2) `prefix_of` [2; 4].
Proof.
  intros Hcfg Hkw. cbv zeta.
  destruct (chat_spec rt environ endpoint (__init__ environ config) messages kwargs)
    as (k & Hle & Hpos & -> & -> & _).
  unfold max_retries in *. cbn in Hle, Hpos. rewrite Hcfg, Hkw in Hle, Hpos.
  cbn in Hle, Hpos. specialize (Hpos ltac:(lia)).
  rewrite sleeps_trace.
  destruct k as [|[|[|[|k]]]]; [done| | | |lia]; (split; [lia|]); cbn.
  - by exists [2; 4].
  - by exists [4].
  - by exists [].
Qed.

Lemma default_budget_witness :
  let out := chat mock_runtime ∅ (always "<html>") (__init__ ∅
               (Build_Config None None None None None None None)) hello no_kwargs initial in
  (1 ≤ calls out.2 ≤ 3)%nat ∧
  sleeps (log out.2) `prefix_of` [2; 4].
Proof.
  apply (default_budget mock_runtime ∅ (always "<html>")
           (Build_Config None None None None None None None) hello no_kwargs);
    reflexivity.
Defined.

(** ** X13: the key the constructor stores *)

(** X13.  For a client built by the constructor, when [AUTH_TOKEN] is set
    to the empty string the token of the request is [AI_API_KEY] if that
    variable is set and not empty, else the [API_KEY] of the configuration
    if it is present and not empty, else the empty string: the request is
    then sent with an empty bearer token. *)
Theorem constructed_client_token
    (rt : runtime) (environ : gmap string string)
    (config : Config) (messages : list Message) (kwargs : Kwargs) :
  environ !! "AUTH_TOKEN" = Some "" →
  let self := __init__ environ config in
  let token :=
    match environ !! "AI_API_KEY" with
    | Some (String a k) => String a k
    | _ =>
        match API_KEY config with
        | Some (String a k) => String a k
        | _ => ""
        end
    end in
  auth_token environ self = token ∧
  command rt environ self messages kwargs !! 8%nat = Some ("Authorization: Bearer " ++ token).
Proof.
  intros Hauth. cbv zeta.
  assert (auth_token environ (__init__ environ config) =
          match environ !! "AI_API_KEY" with
          | Some (String a k) => String a k
          | _ => match API_KEY config with
                 | Some (String a k) => String a k
                 | _ => ""
                 end
          end) as Htoken.
  { unfold auth_token, getenv_default, getenv, __init__, py_or. cbn [api_key].
    rewrite Hauth. cbn.
    destruct (environ !! "AI_API_KEY") as [[|a k]|] eqn:Hkey; cbn;
      destruct (API_KEY config) as [[|b c]|]; cbn; try done;
      unfold getenv_default; by rewrite Hkey. }
  split; [done|].
  change (Some ("Authorization: Bearer " ++ auth_token environ (__init__ environ config))
          = Some ("Authorization: Bearer " ++
                  match environ !! "AI_API_KEY" with
                  | Some (String a k) => String a k
                  | _ => match API_KEY config with
                         | Some (String a k) => String a k
                         | _ => ""
                         end
                  end)).
  by rewrite Htoken.
Qed.

Lemma constructed_client_token_witness :
  let environ : gmap string string := {[ "AUTH_TOKEN" := "" ]} in
  let config := Build_Config None (Some "sk-config") None None None None None in
  let self := __init__ environ config in
  auth_token environ self = "sk-config" ∧
  command mock_runtime environ self hello no_kwargs !! 8%nat =
    Some ("Authorization: Bearer " ++ "sk-config").
Proof.
  assert (({[ "AUTH_TOKEN" := "" ]} : gmap string string) !! "AUTH_TOKEN" = Some "")
    as Hauth by (by vm_compute).
  pose proof (constructed_client_token mock_runtime {[ "AUTH_TOKEN" := "" ]}
                (Build_Config None (Some "sk-config") None None None None None)
                hello no_kwargs Hauth) as H.
  vm_compute in H. vm_compute. exact H.
Defined.

(** ** X14: no failure ends the call early *)

(** X14.  Whatever goes wrong, and in whatever mix (transport, timeout,
    parse, error payload, empty response, a body of the wrong shape, any
    other exception), as long as no attempt brings usable content and the
    effective number of retries is [n >= 0], [chat] makes all [n + 1]
    attempts, sleeps 2, 4, 8, 16, 16, ... between them, [n] times, and
    raises a [ValueError] only after the last one. *)
Theorem no_failure_ends_the_call_early
    (rt : runtime) (environ : gmap string string) (endpoint : nat → run_outcome)
    (self : AIClient) (messages : list Message) (kwargs : Kwargs) (n : Z) :
  default (num_retries self) (kw_num_retries kwargs) = n →
  (0 ≤ n)%Z →
  (∀ i, no_content rt (endpoint i)) →
  let out := chat rt environ endpoint self messages kwargs initial in
  Z.of_nat (calls out.2) = n + 1 ∧
  sleeps (log out.2) = backoff_delays 2 (Z.to_nat n) ∧
  ∃ msg, out.1 = Raise (ValueError msg) ∧ msg ≠ "".
Proof.
  intros Hn Hpos Hnone. cbv zeta.
  destruct (chat_spec rt environ endpoint self messages kwargs)
    as (k & _ & _ & Hc & Hl & _ & Hend).
  rewrite Hc, Hl, sleeps_trace. destruct (_.1) as [v|e].
  - destruct Hend as (i & _ & Hi). destruct (Hnone i v Hi).
  - destruct Hend as (-> & _ & msg & -> & Hmsg).
    unfold max_retries. rewrite Hn.
    replace (Z.to_nat (n + 1)) with (S (Z.to_nat n)) by lia.
    split_and!; [lia|done|by exists msg].
Qed.

Lemma no_failure_ends_the_call_early_witness :
  let out := chat mock_runtime ∅ (always_raising (OtherException "curl: not found"))
               default_client hello no_kwargs initial in
  Z.of_nat (calls out.2) = 2 + 1 ∧
  sleeps (log out.2) = backoff_delays 2 (Z.to_nat 2) ∧
  ∃ msg, out.1 = Raise (ValueError msg) ∧ msg ≠ "".
Proof.
  apply (no_failure_ends_the_call_early mock_runtime ∅
           (always_raising (OtherException "curl: not found"))
           default_client hello no_kwargs 2).
  - reflexivity.
  - lia.
  - intros i. apply failed_no_content.
Defined.


(** * C5: full text or failure *)

Section LastDiagnostic.
Context (rt : runtime) (environ : gmap string string) (endpoint : nat → run_outcome).
Context (self : AIClient) (messages : list Message) (kwargs : Kwargs).

Lemma tried_last attempt :
  attempt + 1 = max_retries self kwargs →
  tried self kwargs attempt = attempt_tag (max_retries self kwargs).
Proof. intros H. unfold tried, attempt_tag. by rewrite H. Qed.

(** What the case analysis of the loop body has found out contradicts an
    upstream error, a blank reply or a reply with content. *)
Ltac absurd_shape :=
  repeat first
    [ progress simplify_eq/=
    | match goal with
      | H : ?x = Some _, H' : context [?x] |- _ => rewrite H in H'; simpl in H'
      | H : ?x = None, H' : context [?x] |- _ => rewrite H in H'; simpl in H'
      | H : ?x = true, H' : context [?x] |- _ => rewrite H in H'; simpl in H'
      | H : default ?a ?b = _, H' : context [default ?a ?b] |- _ =>
          rewrite H in H'; simpl in H'
      | H : ¬ is_Some None |- _ => clear H
      | H : ¬ is_Some (Some _) |- _ => by destruct H
      end ];
  try done; try congruence;
  try by (repeat match goal with
                 | H : context [negb ?b] |- _ => destruct b eqn:?; simpl in *
                 end).

Ltac not_upstream :=
  intros ? (? & ? & ? & ? & ?); absurd_shape.

Ltac not_blank :=
  let H := fresh in
  intros H; inversion H; absurd_shape.

Ltac not_content :=
  intros ? [(? & ? & ? & ? & ? & ? & ? & ? & ? & ? & ?) ?]; absurd_shape.

Lemma try_body_raised attempt s :
  ¬ attempt + 1 < max_retries self kwargs →
  match try_body rt environ endpoint self messages kwargs attempt s with
  | (Ok (Return v), _) => True
  | (Ok Next, _) => False
  | (Raise e, s') =>
      raised rt (endpoint (calls s)) e ∧
      result s' = match endpoint (calls s) with
                  | Completed out => Some {| cp_stdout := out |}
                  | Failed _ => result s
                  end
  end.
Proof.
  intros Hlast.
  cbv [try_body subprocess_run mbind M_bind mret M_ret
       set_result get_result set_delay get_delay time_sleep lift raise backoff
       loads res_bind res_ret py_in py_get py_getitem py_getitem0].
  rewrite ?(bool_decide_eq_false_2 (attempt + 1 < max_retries self kwargs)) by done.
  destruct (endpoint (calls s)) as [out|e] eqn:Ho;
    cbn [delay result calls log cp_stdout];
    [destruct (json_loads rt out) as [rd|] eqn:Hl; [destruct rd|]|].
  all: repeat (case_match; simplify_eq/=).
  all: try exact I.
  all: decided.
  all: (split; [|done]).
  all: try solve [eapply raised_shape; [eassumption|not_upstream|not_blank|not_content|exact I]].
  all: try solve [by apply raised_malformed | by apply raised_by_run
                 | apply raised_upstream; by eexists _, _ ].
  all: try solve
    [ apply raised_blank; eapply blank_choices;
      [eassumption|by apply eq_None_not_Some|by apply negb_true_iff]
    | apply raised_blank; eapply blank_content;
      [eassumption|by apply eq_None_not_Some|eassumption|eassumption
      |by apply negb_true_iff] ].
Qed.

Lemma except_diagnostic attempt e s o :
  attempt + 1 = max_retries self kwargs →
  raised rt o e →
  result s = match o with
             | Completed out => Some {| cp_stdout := out |}
             | Failed _ => None
             end →
  ∃ msg,
    (except rt self kwargs attempt e s).1 = Raise (ValueError msg) ∧
    diagnostic rt (max_retries self kwargs) o msg.
Proof.
  intros Hlast Hraised Hresult.
  destruct Hraised as [e|out Hl|o e Hup|o Hblank|out v e Hl Hup Hblank Hnone Hshape];
    [destruct e| | | |destruct e; try done];
    cbv [except raise_or_backoff get_result mbind M_bind raise str_exn];
    rewrite ?Hresult, ?(tried_last attempt Hlast);
    rewrite (bool_decide_eq_true_2 (attempt + 1 = max_retries self kwargs)) by done;
    (eexists; split; [reflexivity|]).
  all: first
    [ apply diagnostic_transport
    | apply diagnostic_timeout
    | apply diagnostic_decode_error_of_run
    | by apply diagnostic_malformed
    | by apply diagnostic_upstream
    | by apply diagnostic_blank
    | by apply (diagnostic_unexpected rt _ (ValueError _))
    | by apply (diagnostic_unexpected rt _ (OtherException _))
    | by apply diagnostic_unexpected
    | by eapply diagnostic_shape ].
Qed.

Lemma iteration_last attempt s :
  attempt + 1 = max_retries self kwargs →
  match (iteration rt environ endpoint self messages kwargs attempt s).1 with
  | Ok (Return v) => True
  | Ok Next => False
  | Raise e =>
      ∃ msg, e = ValueError msg ∧
        diagnostic rt (max_retries self kwargs) (endpoint (calls s)) msg
  end.
Proof.
  intros Hlast. unfold iteration, try_except.
  change ((set_result None ≫= ?f) s) with (f () (set_result None s).2).
  pose proof (try_body_raised attempt (set_result None s).2 ltac:(lia)) as Hbody.
  cbn [set_result snd calls result] in Hbody. cbn [set_result snd].
  destruct (try_body _ _ _ _ _ _ _ _) as [[[v|]|e] s']; [done..|].
  destruct Hbody as [Hraised Hresult].
  destruct (except_diagnostic attempt e s' (endpoint (calls s)) Hlast Hraised)
    as (msg & -> & Hmsg); [by destruct (endpoint (calls s))|].
  by exists msg.
Qed.

(** The exception of a call that has made [i + 1] attempts, the whole
    budget, carries the diagnostic of the last one. *)
Lemma chat_raises_last_diagnostic (i : nat) (e : exn) :
  Z.to_nat (max_retries self kwargs) = S i →
  (∀ j, (j < i)%nat → no_content rt (endpoint j)) →
  (chat rt environ endpoint self messages kwargs initial).1 = Raise e →
  ∃ msg, e = ValueError msg ∧
    diagnostic rt (max_retries self kwargs) (endpoint i) msg.
Proof.
  intros Hbudget Hearlier. unfold chat, _call_api_with_curl.
  change ((set_delay 2 ≫= ?f) initial) with (f () (set_delay 2 initial).2).
  rewrite Hbudget.
  destruct (attempts_reach_last rt environ endpoint self messages kwargs
              i 0 (set_delay 2 initial).2) as (s' & Hs' & ->); [lia|done|].
  cbn in Hs'. rewrite attempts_S, Z.add_0_l.
  pose proof (iteration_last (Z.of_nat i) s' ltac:(lia)) as Hlast.
  rewrite Hs' in Hlast.
  destruct (iteration _ _ _ _ _ _ _ _) as [[[v|]|e'] s'']; cbn in *;
    intros He; [done..|].
  by simplify_eq.
Qed.
End LastDiagnostic.

(** C5.  Whatever the inputs and whatever the attempts bring, [chat] ends
    in one of two ways.  Either it returns a value, and that value is the
    complete, truthy content of the first choice of the response of the
    last attempt made.  Or it raises a [ValueError], and then no attempt
    made had usable content, and the message is not empty and is the
    diagnostic of the failure of the last attempt: the text of its category
    (transport, timeout, parse, upstream error, empty response, or the
    catch-all text for any other exception) with the attempt counter and
    with what that failure brought (exit code and output, the raw body, the
    upstream message, the text of the exception); without any attempt, it
    is the text of the [raise] after the loop.  Nothing else is ever
    returned and no other exception leaves the call. *)
Theorem chat_returns_content_or_raises
    (rt : runtime) (environ : gmap string string) (endpoint : nat → run_outcome)
    (self : AIClient) (messages : list Message) (kwargs : Kwargs) :
  let out := chat rt environ endpoint self messages kwargs initial in
  let k := max_retries self kwargs in
  match out.1 with
  | Ok v =>
      ∃ i, calls out.2 = S i ∧ has_content rt (endpoint i) v
  | Raise e =>
      (∀ i, (i < calls out.2)%nat → no_content rt (endpoint i)) ∧
      ∃ msg, e = ValueError msg ∧ msg ≠ "" ∧
        match calls out.2 with
        | O => (k ≤ 0)%Z ∧ msg = "达到最大重试次数后依然失败"
        | S i => Z.of_nat (S i) = k ∧ diagnostic rt k (endpoint i) msg
        end
  end.
Proof.
  cbv zeta.
  destruct (chat_spec rt environ endpoint self messages kwargs)
    as (n & _ & _ & Hc & _ & _ & Hend).
  rewrite Hc. destruct (_.1) as [v|e] eqn:Hout.
  - destruct Hend as (i & -> & Hi). by exists i.
  - destruct Hend as (-> & Hall & msg & -> & Hmsg).
    split; [done|]. exists msg. split_and!; [done..|].
    destruct (Z.to_nat (max_retries self kwargs)) as [|i] eqn:Hbudget.
    + split; [lia|].
      unfold chat, _call_api_with_curl in Hout.
      change ((set_delay 2 ≫= ?f) initial) with (f () (set_delay 2 initial).2) in Hout.
      rewrite Hbudget in Hout. cbn in Hout. by simplify_eq.
    + split; [lia|].
      destruct (chat_raises_last_diagnostic rt environ endpoint self messages kwargs
                  i (ValueError msg) Hbudget) as (msg' & Heq & Hdiag); [|done|].
      * intros j Hj. apply Hall. lia.
      * by simplify_eq.
Qed.
